(** * retriever/lib/templates.py: the table-processing pipeline of
      [BasicTextTemplate.download]

    A shallow embedding of [Script.download], [BasicTextTemplate.download]
    and the four [process_*] helpers.  Python objects are attribute maps
    ([hasattr] is a lookup), the engine is an external collaborator whose
    method calls are recorded, in order, in an output trace together with
    what is printed, and Python exceptions are an explicit result.

    The engine's methods are outside this file: a call is taken to return
    normally and to leave the attributes read here ([spatial_support],
    [name]) as they are; [format_filename] is a function of its argument
    for a given engine. *)

From stdpp Require Import gmap strings list fin_maps.
From Stdlib Require Import ZArith.

Open Scope string_scope.
Open Scope list_scope.

(** ** Python values and objects *)

#[local] Set Warnings "-register-all".

Inductive pyval : Type :=
  | PNone
  | PBool (b : bool)
  | PInt (n : Z)
  | PStr (s : string)
  | PList (l : list pyval).

(** An object as far as [hasattr] / attribute access see it. *)
Abbreviation PyObj := (gmap string pyval).

(** [bool(v)] *)
Definition truthy (v : pyval) : bool :=
  match v with
  | PNone => false
  | PBool b => b
  | PInt n => negb (n =? 0)%Z
  | PStr s => negb (String.eqb s "")
  | PList l => match l with [] => false | _ => true end
  end.

(** [v == "literal"]: only a [str] compares equal to a [str]. *)
Definition py_eq_str (v : pyval) (s : string) : bool :=
  match v with
  | PStr s' => String.eqb s' s
  | _ => false
  end.

(** [v in ["a", "b", ...]] *)
Definition py_in_strs (v : pyval) (l : list string) : bool :=
  existsb (py_eq_str v) l.

Definition hasattr (o : PyObj) (a : string) : bool :=
  match o !! a with Some _ => true | None => false end.

Inductive exn : Type :=
  | AttributeError (attr : string)
  | UnboundLocalError (var : string)
  | IndexError
  | TypeError.

(** ** The script, the engine and the trace *)

(** [Script.__init__] always sets [name] and [encoding]; every other
    keyword argument becomes an attribute through the [setattr] loops
    ([url], [archived], [extract_all], [keep_in_dir], [archive_name]).
    [tables] is the dict in insertion order, as [items()] yields it. *)
Record Script : Type := {
  script_name : pyval;
  script_encoding : pyval;
  script_tables : list (string * PyObj);
  script_attrs : PyObj
}.

(** The engine object: its data attributes ([spatial_support], [name],
    [debug], [db_name]), the [script] back reference, and what
    [format_filename] returns. *)
Record Engine : Type := {
  engine_attrs : PyObj;
  engine_script : option Script;
  engine_format : pyval -> pyval
}.

(** Calls of engine methods, with their arguments. *)
Module Eng.
Inductive call : Type :=
  | get_input
  | set_engine_encoding
  | create_db
  | download_files_from_archive
      (url file_names archive_type keep_in_dir archive_name : pyval)
  | format_filename (filename : pyval)
  | download_file (url filename : pyval)
  | excel_to_csv (src_path path_to_csv excel_info encoding : pyval)
  | process_geojson2csv (src_path path_to_csv : pyval)
  | auto_create_table (table : PyObj) (url : pyval) (filename : option pyval)
  | insert_data_from_file (filename : pyval)
  | insert_data_from_url (url : pyval)
  | insert_raster (path : pyval)
  | insert_vector (path : pyval)
  | disconnect_files.
End Eng.

Inductive event : Type :=
  | Call (c : Eng.call)
  | Print (template : string) (eng : pyval).

(** The engine bound to [self.engine], and everything called or printed
    so far. *)
Record State : Type := {
  self_engine : Engine;
  out : list event
}.

(** ** Statements: state passing with exceptions *)

Inductive result (A : Type) : Type :=
  | Val (a : A)
  | Raise (e : exn).
Arguments Val {A} a.
Arguments Raise {A} e.

Definition M (A : Type) : Type := State -> result A * State.

Definition ret {A} (a : A) : M A := fun st => (Val a, st).

Definition bind {A B} (m : M A) (f : A -> M B) : M B := fun st =>
  match m st with
  | (Val a, st') => f a st'
  | (Raise e, st') => (Raise e, st')
  end.

Declare Scope M_scope.
Delimit Scope M_scope with M.
Bind Scope M_scope with M.
Notation "x ← m ; f" := (bind m (fun x => f))
  (at level 20, m at level 100, f at level 200, only parsing) : M_scope.
Notation "m ;; f" := (bind m (fun _ => f))
  (at level 100, f at level 200, only parsing, right associativity) : M_scope.
Open Scope M_scope.

Definition raise {A} (e : exn) : M A := fun st => (Raise e, st).

(** The state after [evs] more events. *)
Definition emits (st : State) (evs : list event) : State :=
  {| self_engine := self_engine st; out := out st ++ evs |}.

Definition emit (ev : event) : M unit := fun st => (Val tt, emits st [ev]).

Definition call (c : Eng.call) : M unit := emit (Call c).

(** [obj.attr] *)
Definition getattr (o : PyObj) (a : string) : M pyval :=
  match o !! a with
  | Some v => ret v
  | None => raise (AttributeError a)
  end.

(** [self.engine.attr] and [hasattr(self.engine, attr)] *)
Definition engine_getattr (a : string) : M pyval :=
  fun st => getattr (engine_attrs (self_engine st)) a st.

Definition engine_hasattr (a : string) : M bool :=
  fun st => (Val (hasattr (engine_attrs (self_engine st)) a), st).

(** [self.engine.format_filename(v)] *)
Definition format_filename (v : pyval) : M pyval :=
  fun st =>
    (call (Eng.format_filename v);;
     ret (engine_format (self_engine st) v)) st.

(** Reading the local variable [url] of [download]. *)
Definition local (var : string) (x : option pyval) : M pyval :=
  match x with
  | Some v => ret v
  | None => raise (UnboundLocalError var)
  end.

(** [v[i]] for a literal index [i >= 0]. *)
Definition py_getitem (v : pyval) (i : nat) : M pyval :=
  match v with
  | PList l =>
      match l !! i with
      | Some x => ret x
      | None => raise IndexError
      end
  | PStr s =>
      match String.get i s with
      | Some c => ret (PStr (String c EmptyString))
      | None => raise IndexError
      end
  | _ => raise TypeError
  end.

(** ** The methods of [BasicTextTemplate] *)

Definition process_tabular_insert (self : Script) (table_obj : PyObj)
    (url : pyval) : M unit :=
  if hasattr (script_attrs self) "archived" || hasattr table_obj "path" then
    p ← getattr table_obj "path";
    path_to_file ← format_filename p;
    call (Eng.insert_data_from_file path_to_file)
  else
    call (Eng.insert_data_from_url url).

Definition process_spatial_insert (table_obj : PyObj) : M unit :=
  dt ← getattr table_obj "dataset_type";
  if py_eq_str dt "RasterDataset" then
    p ← getattr table_obj "path";
    f ← format_filename p;
    call (Eng.insert_raster f)
  else
    dt' ← getattr table_obj "dataset_type";
    if py_eq_str dt' "VectorDataset" then
      p ← getattr table_obj "path";
      f ← format_filename p;
      call (Eng.insert_vector f)
    else ret tt.

Definition process_tables (self : Script) (table_obj : PyObj)
    (url : pyval) : M unit :=
  (if hasattr table_obj "xls_sheets" then
     sheets ← getattr table_obj "xls_sheets";
     book ← py_getitem sheets 1;
     src_path ← format_filename book;
     p ← getattr table_obj "path";
     path_to_csv ← format_filename p;
     sheets' ← getattr table_obj "xls_sheets";
     book' ← py_getitem sheets' 1;
     call (Eng.download_file url book');;
     sheets'' ← getattr table_obj "xls_sheets";
     call (Eng.excel_to_csv src_path path_to_csv sheets''
             (script_encoding self))
   else ret tt);;
  (if hasattr table_obj "geojson_data" then
     g ← getattr table_obj "geojson_data";
     src_path ← format_filename g;
     p ← getattr table_obj "path";
     path_to_csv ← format_filename p;
     g' ← getattr table_obj "geojson_data";
     call (Eng.download_file url g');;
     call (Eng.process_geojson2csv src_path path_to_csv)
   else ret tt);;
  if hasattr table_obj "path" then
    p ← getattr table_obj "path";
    call (Eng.auto_create_table table_obj url (Some p))
  else
    call (Eng.auto_create_table table_obj url None).

Definition process_archived_data (self : Script) (table_obj : PyObj)
    (url : pyval) : M unit :=
  let archive_type := PStr "zip" in
  let keep_in_dir := PBool false in
  let archive_name := PNone in
  let files := PNone in
  archive_type ←
    (if hasattr table_obj "archived" then getattr table_obj "archived"
     else if hasattr (script_attrs self) "archived"
          then getattr (script_attrs self) "archived"
          else ret archive_type);
  files ←
    (if hasattr (script_attrs self) "extract_all" then
       ea ← getattr (script_attrs self) "extract_all";
       if truthy ea then ret PNone else ret files
     else
       p ← getattr table_obj "path";
       ret (PList [p]));
  files ←
    (if hasattr table_obj "xls_sheets" then
       sheets ← getattr table_obj "xls_sheets";
       book ← py_getitem sheets 1;
       ret (PList [book])
     else ret files);
  keep_in_dir ←
    (if hasattr (script_attrs self) "keep_in_dir"
     then getattr (script_attrs self) "keep_in_dir"
     else ret keep_in_dir);
  archive_name ←
    (if hasattr (script_attrs self) "archive_name"
     then getattr (script_attrs self) "archive_name"
     else ret archive_name);
  call (Eng.download_files_from_archive url files archive_type keep_in_dir
          archive_name).

(** ** The body of the [for] loop of [download], block by block *)

(** How a block hands control on. *)
Inductive signal : Type := Fallthrough | Continue | Return.

Definition spatial_template : string :=
  "Engine {eng} does not support spatial processing".

(** Lines 120-124.  With no [else], [url] keeps the binding it had. *)
Definition resolve_url (self : Script) (table_obj : PyObj)
    (url : option pyval) : M (option pyval) :=
  own ← (if hasattr table_obj "url"
         then u ← getattr table_obj "url"; ret (truthy u)
         else ret false : M bool);
  if own then
    u ← getattr table_obj "url"; ret (Some u)
  else
    su ← getattr (script_attrs self) "url";
    if truthy su then
      su' ← getattr (script_attrs self) "url"; ret (Some su')
    else ret url.

(** Lines 126-128. *)
Definition archive_stage (self : Script) (table_obj : PyObj)
    (url : option pyval) : M unit :=
  if hasattr (script_attrs self) "archived" || hasattr table_obj "archived"
  then u ← local "url" url; process_archived_data self table_obj u
  else ret tt.

(** Lines 130-139. *)
Definition create_stage (self : Script) (table_obj : PyObj)
    (url : option pyval) : M signal :=
  tabular ← (if hasattr table_obj "format"
             then f ← getattr table_obj "format"; ret (py_eq_str f "tabular")
             else ret false : M bool);
  if tabular then
    u ← local "url" url; process_tables self table_obj u;; ret Fallthrough
  else
    has ← engine_hasattr "spatial_support";
    if has then
      ss ← engine_getattr "spatial_support";
      if truthy ss then
        u ← local "url" url; process_tables self table_obj u;;
        ret Fallthrough
      else
        n ← engine_getattr "name";
        emit (Print spatial_template n);;
        ret Return
    else ret Fallthrough.

(** Lines 141-148. *)
Definition insert_stage (self : Script) (table_obj : PyObj)
    (url : option pyval) : M signal :=
  if hasattr table_obj "dataset_type" then
    dt ← getattr table_obj "dataset_type";
    if py_in_strs dt ["RasterDataset"; "VectorDataset"] then
      process_spatial_insert table_obj;; ret Continue
    else
      u ← local "url" url;
      process_tabular_insert self table_obj u;; ret Fallthrough
  else ret Fallthrough.

(** Lines 141-149: the insertion block and the statement after it. *)
Definition insert_block (self : Script) (table_obj : PyObj)
    (url : option pyval) : M signal :=
  i ← insert_stage self table_obj url;
  match i with
  | Fallthrough => call Eng.disconnect_files;; ret Fallthrough
  | s => ret s
  end.

(** One iteration: the signal and the binding of [url] it leaves. *)
Definition loop_body (self : Script) (table_obj : PyObj)
    (url : option pyval) : M (signal * option pyval) :=
  url ← resolve_url self table_obj url;
  archive_stage self table_obj url;;
  c ← create_stage self table_obj url;
  match c with
  | Return => ret (Return, url)
  | _ => i ← insert_block self table_obj url; ret (i, url)
  end.

(** [for _, table_obj in self.tables.items(): ...] *)
Fixpoint for_tables (self : Script) (tables : list (string * PyObj))
    (url : option pyval) : M unit :=
  match tables with
  | [] => ret tt
  | (_, table_obj) :: rest =>
      r ← loop_body self table_obj url;
      match r with
      | (Return, _) => ret tt
      | (_, url') => for_tables self rest url'
      end
  end.

Section Download.

(** What [choose_engine({})] of [retriever.engines] returns. *)
Variable choose_engine : Engine.

Definition checkengine (self : Script) (engine : option Engine)
    (out0 : list event) : State :=
  let engine := match engine with
                | None => choose_engine
                | Some e => e
                end in
  {| self_engine :=
       {| engine_attrs := engine_attrs engine;
          engine_script := Some self;
          engine_format := engine_format engine |};
     out := out0 ++ [Call Eng.get_input; Call Eng.set_engine_encoding] |}.

(** [Script.download] *)
Definition Script_download (self : Script) (engine : option Engine)
    (debug : pyval) (out0 : list event) : State :=
  let st := checkengine self engine out0 in
  let e := self_engine st in
  {| self_engine :=
       {| engine_attrs := <["db_name" := script_name self]>
                            (<["debug" := debug]> (engine_attrs e));
          engine_script := engine_script e;
          engine_format := engine_format e |};
     out := out st ++ [Call Eng.create_db] |}.

(** [BasicTextTemplate.download] *)
Definition download (self : Script) (engine : option Engine)
    (debug : pyval) (out0 : list event) : result unit * State :=
  for_tables self (script_tables self) None
    (Script_download self engine debug out0).

End Download.

(** ** Vocabulary for the statements *)

(** Calls that load data into the store. *)
Definition tabular_insert (ev : event) : bool :=
  match ev with
  | Call (Eng.insert_data_from_file _) | Call (Eng.insert_data_from_url _) =>
      true
  | _ => false
  end.

Definition spatial_insert (ev : event) : bool :=
  match ev with
  | Call (Eng.insert_raster _) | Call (Eng.insert_vector _) => true
  | _ => false
  end.

Definition insertion (ev : event) : bool :=
  tabular_insert ev || spatial_insert ev.

(** Calls of the table-creation path of [process_tables]. *)
Definition creation (ev : event) : bool :=
  match ev with
  | Call (Eng.download_file _ _) | Call (Eng.excel_to_csv _ _ _ _)
  | Call (Eng.process_geojson2csv _ _) | Call (Eng.auto_create_table _ _ _) =>
      true
  | _ => false
  end.

Definition archive_call (ev : event) : bool :=
  match ev with
  | Call (Eng.download_files_from_archive _ _ _ _ _) => true
  | _ => false
  end.

Definition formatting (ev : event) : bool :=
  match ev with
  | Call (Eng.format_filename _) => true
  | _ => false
  end.

Definition cleanup (ev : event) : bool :=
  match ev with
  | Call Eng.disconnect_files => true
  | _ => false
  end.

Definition diagnostic (ev : event) : bool :=
  match ev with
  | Print _ _ => true
  | _ => false
  end.

(** Line 143 on a table: is a raster or vector insertion selected? *)
Definition spatial_kind (table_obj : PyObj) : bool :=
  match table_obj !! "dataset_type" with
  | Some dt => py_in_strs dt ["RasterDataset"; "VectorDataset"]
  | None => false
  end.

(** The file list of lines 210-214, when computing it does not fail. *)
Definition general_file_names (self : Script) (table_obj : PyObj)
    : option pyval :=
  if hasattr (script_attrs self) "extract_all" then Some PNone
  else match table_obj !! "path" with
       | Some p => Some (PList [p])
       | None => None
       end.

(** Rule 2 in the specification's words: the archive stage is active
    when the table declares [archived] or the dataset does; the table's
    archive type wins over the dataset's; a spreadsheet selector forces
    the file list to the workbook alone. *)
Definition spec_archive_active (self : Script) (table_obj : PyObj) : bool :=
  hasattr table_obj "archived" || hasattr (script_attrs self) "archived".

Definition spec_archive_type (self : Script) (table_obj : PyObj) : pyval :=
  match table_obj !! "archived" with
  | Some a => a
  | None => default (PStr "zip") (script_attrs self !! "archived")
  end.

Definition spec_file_names (table_obj : PyObj) (general : pyval) : pyval :=
  match table_obj !! "xls_sheets" with
  | Some (PList (_ :: book :: _)) => PList [book]
  | _ => general
  end.

(** The value of [files] after lines 210-218, or the exception raised on
    the way: the general list first, then the sheet selector's second
    element in its place. *)
Definition archive_file_names (self : Script) (table_obj : PyObj)
    : result pyval :=
  match general_file_names self table_obj with
  | None => Raise (AttributeError "path")
  | Some general =>
      match table_obj !! "xls_sheets" with
      | None => Val general
      | Some (PList l) =>
          match l !! 1 with
          | Some book => Val (PList [book])
          | None => Raise IndexError
          end
      | Some (PStr s) =>
          match String.get 1 s with
          | Some c => Val (PList [PStr (String c EmptyString)])
          | None => Raise IndexError
          end
      | Some _ => Raise TypeError
      end
  end.

(** [m], run on engine [e], leaves the engine as it is and appends a
    sequence of events that does not depend on what was emitted before;
    every one of them satisfies [P]. *)
Definition traces_at (e : Engine) (P : event -> Prop) {A} (m : M A) : Prop :=
  exists r evs,
    Forall P evs /\
    forall o, m {| self_engine := e; out := o |}
              = (r, {| self_engine := e; out := o ++ evs |}).

(** ** Concrete datasets *)

Definition obj (l : list (string * pyval)) : PyObj := list_to_map l.

Definition raw_data (v : pyval) : pyval :=
  match v with
  | PStr s => PStr (String.append "raw_data/" s)
  | _ => v
  end.

(** An engine without spatial support, one with it, and one on which the
    attribute does not exist. *)
Definition plain_engine : Engine :=
  {| engine_attrs := obj [("name", PStr "csv");
                          ("spatial_support", PBool false)];
     engine_script := None;
     engine_format := raw_data |}.

Definition spatial_engine : Engine :=
  {| engine_attrs := obj [("name", PStr "postgres");
                          ("spatial_support", PBool true)];
     engine_script := None;
     engine_format := raw_data |}.

Definition bare_engine : Engine :=
  {| engine_attrs := obj [("name", PStr "custom")];
     engine_script := None;
     engine_format := raw_data |}.

Definition state_of (e : Engine) : State := {| self_engine := e; out := [] |}.

Definition raster_table : PyObj :=
  obj [("path", PStr "a.tif"); ("dataset_type", PStr "RasterDataset")].

Definition csv_table : PyObj :=
  obj [("format", PStr "tabular"); ("dataset_type", PStr "TabularDataset");
       ("url", PStr "http://x/b.csv")].

Definition script_of (attrs : list (string * pyval))
    (tables : list (string * PyObj)) : Script :=
  {| script_name := PStr "ds"; script_encoding := PStr "utf-8";
     script_tables := tables; script_attrs := obj attrs |}.

(** A raster table followed by a plain CSV table. *)
Definition two_tables : Script :=
  script_of [("url", PStr "http://x")]
            [("a", raster_table); ("b", csv_table)].

(** A table that is itself archived, in a dataset that is not. *)
Definition zip_table : PyObj :=
  obj [("archived", PStr "zip"); ("format", PStr "tabular");
       ("dataset_type", PStr "TabularDataset")].

Definition zip_script : Script :=
  script_of [("url", PStr "http://x/data.zip"); ("extract_all", PBool true)]
            [("z", zip_table)].



(** A table with both a spreadsheet selector and a geojson file. *)
Definition mixed_table : PyObj :=
  obj [("xls_sheets", PList [PInt 0; PStr "book.xlsx"]);
       ("geojson_data", PStr "geo.json"); ("path", PStr "out.csv");
       ("format", PStr "tabular")].

Definition mixed_script : Script :=
  script_of [("url", PStr "http://x")] [("m", mixed_table)].

(** An archived spreadsheet table in a dataset with its own archive
    type. *)
Definition workbook_table : PyObj :=
  obj [("archived", PStr "zip");
       ("xls_sheets", PList [PInt 0; PStr "book.xlsx"]);
       ("path", PStr "out.csv"); ("format", PStr "tabular")].

Definition workbook_script : Script :=
  script_of [("url", PStr "http://x/data.zip"); ("archived", PStr "tar");
             ("keep_in_dir", PBool true)]
            [("w", workbook_table)].

(** A dataset whose [url] is the empty string: the first table has its
    own URL, the second has none. *)
Definition first_table : PyObj :=
  obj [("format", PStr "tabular"); ("dataset_type", PStr "TabularDataset");
       ("url", PStr "http://x/a.csv")].

Definition second_table : PyObj :=
  obj [("format", PStr "tabular"); ("dataset_type", PStr "TabularDataset")].

Definition no_default_url : Script :=
  script_of [("url", PStr "")]
            [("a", first_table); ("b", second_table)].

(** An archived workbook table without a [path]. *)
Definition pathless_workbook : PyObj :=
  obj [("archived", PStr "zip");
       ("xls_sheets", PList [PInt 0; PStr "book.xlsx"])].

(** The same descriptor under two names, each after a table with a URL
    of its own, in a dataset whose [url] is empty. *)
Definition third_table : PyObj :=
  obj [("format", PStr "tabular"); ("dataset_type", PStr "TabularDataset");
       ("url", PStr "http://x/c.csv")].

Definition repeated_table : Script :=
  script_of [("url", PStr "")]
            [("a", first_table); ("b1", second_table);
             ("c", third_table); ("b2", second_table)].


(** ** Vocabulary for the passes of the loop *)

(** The table a call creates, and the URL a call is given. *)
Definition created (ev : event) : option PyObj :=
  match ev with
  | Call (Eng.auto_create_table t _ _) => Some t
  | _ => None
  end.

Definition created_tables (evs : list event) : list PyObj :=
  omap created evs.

Definition url_arg (ev : event) : option pyval :=
  match ev with
  | Call (Eng.download_files_from_archive u _ _ _ _)
  | Call (Eng.download_file u _)
  | Call (Eng.auto_create_table _ u _)
  | Call (Eng.insert_data_from_url u) => Some u
  | _ => None
  end.

(** Lines 131-135 on a table and an engine: is [process_tables] called? *)
Definition creates (e : Engine) (table_obj : PyObj) : bool :=
  match table_obj !! "format" with
  | Some f => py_eq_str f "tabular"
  | None => false
  end
  || match engine_attrs e !! "spatial_support" with
     | Some ss => truthy ss
     | None => false
     end.

(** ** The metadata methods of [Script] *)

(** The attributes that [__str__], [reference_url] and [matches_terms]
    read besides [name]: [description] and [ref] are set by
    [Script.__init__], [keywords] is set to [[]] there and may be replaced
    by a keyword argument, and [urls] is the dict, in insertion order
    (its keys are distinct). *)
Record Metadata : Type := {
  meta_description : pyval;
  meta_ref : pyval;
  meta_urls : list (string * pyval);
  meta_keywords : pyval
}.

(** [d[k]]; [None] stands for [KeyError]. *)
Definition dict_get (d : list (string * pyval)) (k : string)
    : option pyval :=
  snd <$> List.find (fun kv => String.eqb kv.1 k) d.

(** [Script.reference_url]; [None] stands for an exception
    ([IndexError] or [KeyError]). *)
Definition reference_url (meta : Metadata) : option pyval :=
  if truthy (meta_ref meta) then Some (meta_ref meta)
  else if Nat.eqb (length (meta_urls meta)) 1 then
    match (meta_urls meta).*1 !! 0 with
    | Some k => dict_get (meta_urls meta) k
    | None => None
    end
  else Some PNone.

Definition newline : string := String (Ascii.ascii_of_nat 10) EmptyString.

(** [desc += s] for a [str] [s]: concatenation on a [str], extension by
    the characters of [s] on a list, [TypeError] otherwise. *)
Definition py_iadd_str (desc : pyval) (s : string) : result pyval :=
  match desc with
  | PStr d => Val (PStr (String.append d s))
  | PList l =>
      Val (PList (l ++ ((fun c => PStr (String c EmptyString))
                          <$> String.list_ascii_of_string s)))
  | _ => Raise TypeError
  end.

(** [Script.__str__] *)
Definition Script_str (self : Script) (meta : Metadata) : result pyval :=
  let desc := script_name self in
  match reference_url meta with
  | None => Raise IndexError
  | Some r =>
      if truthy r then
        match r with
        | PStr u => py_iadd_str desc (String.append newline u)
        | _ => Raise TypeError
        end
      else Val desc
  end.

(** [needle in hay] on strings. *)
Fixpoint str_prefix (p s : string) : bool :=
  match p, s with
  | EmptyString, _ => true
  | String a p', String b s' => Ascii.eqb a b && str_prefix p' s'
  | String _ _, EmptyString => false
  end.

Fixpoint str_contains (needle hay : string) : bool :=
  str_prefix needle hay
  || match hay with
     | String _ hay' => str_contains needle hay'
     | EmptyString => false
     end.

(** [isinstance(v, str)] *)
Definition is_str (v : pyval) : bool :=
  match v with
  | PStr _ => true
  | _ => false
  end.

(** [sep.join(l)]: every item must be a [str]. *)
Fixpoint str_join (sep : string) (l : list pyval) : result string :=
  match l with
  | [] => Val EmptyString
  | PStr s :: rest =>
      match rest with
      | [] => Val s
      | _ =>
          match str_join sep rest with
          | Val r => Val (String.append s (String.append sep r))
          | Raise e => Raise e
          end
      end
  | _ => Raise TypeError
  end.

Section Search.

(** [str.upper]. *)
Variable str_upper : string -> string.

(** The [for] loop of [matches_terms]. *)
Fixpoint terms_loop (search_string : string) (terms : list pyval)
    : result bool :=
  match terms with
  | [] => Val true
  | term :: rest =>
      match term with
      | PStr t =>
          if negb (str_contains (str_upper t) search_string) then Val false
          else terms_loop search_string rest
      | _ => Raise (AttributeError "upper")
      end
  end.

(** One iteration of that loop lets the loop go on. *)
Definition term_found (search_string : string) (term : pyval) : bool :=
  match term with
  | PStr t => str_contains (str_upper t) search_string
  | _ => false
  end.

(** The [try] block of [matches_terms]. *)
Definition matches_terms_try (self : Script) (meta : Metadata)
    (terms : list pyval) : result bool :=
  match meta_keywords meta with
  | PList keywords =>
      match str_join " " ([script_name self; meta_description meta;
                           script_name self] ++ keywords) with
      | Val joined => terms_loop (str_upper joined) terms
      | Raise e => Raise e
      end
  | _ => Raise TypeError
  end.

(** [Script.matches_terms]: any exception gives [False]. *)
Definition matches_terms (self : Script) (meta : Metadata)
    (terms : list pyval) : bool :=
  match matches_terms_try self meta terms with
  | Val b => b
  | Raise _ => false
  end.

End Search.

(** Upper case on ASCII letters, an instance of [str.upper]. *)
Definition ascii_upper (c : Ascii.ascii) : Ascii.ascii :=
  let n := Ascii.nat_of_ascii c in
  if (97 <=? n)%nat && (n <=? 122)%nat then Ascii.ascii_of_nat (n - 32)
  else c.

Fixpoint upper_ascii (s : string) : string :=
  match s with
  | EmptyString => EmptyString
  | String c s' => String (ascii_upper c) (upper_ascii s')
  end.

Definition portal : Script :=
  script_of [("url", PStr "http://x")] [].

Definition portal_meta : Metadata :=
  {| meta_description := PStr "Bird counts";
     meta_ref := PStr "";
     meta_urls := [("main", PStr "http://x/birds")];
     meta_keywords := PList [PStr "survey"] |}.

(** ** How statements compose *)

Lemma emits_nil st : emits st [] = st.
Proof. destruct st; unfold emits; simpl; by rewrite app_nil_r. Qed.

Lemma emits_emits st evs evs' :
  emits (emits st evs) evs' = emits st (evs ++ evs').
Proof. unfold emits; simpl; by rewrite app_assoc. Qed.

Section Traces.
Context (e : Engine) (P : event -> Prop).

Lemma traces_ret {A} (a : A) : traces_at e P (ret a).
Proof.
  exists (Val a), []; split; [constructor |].
  intros o; unfold ret; by rewrite app_nil_r.
Qed.

Lemma traces_raise {A} x : traces_at e P (@raise A x).
Proof.
  exists (Raise x), []; split; [constructor |].
  intros o; unfold raise; by rewrite app_nil_r.
Qed.

Lemma traces_emit ev : P ev -> traces_at e P (emit ev).
Proof.
  intros Hev; exists (Val tt), [ev]; split; [by repeat constructor |].
  intros o; reflexivity.
Qed.

Lemma traces_call c : P (Call c) -> traces_at e P (call c).
Proof. apply traces_emit. Qed.

Lemma traces_bind {A B} (m : M A) (f : A -> M B) :
  traces_at e P m -> (forall a, traces_at e P (f a)) ->
  traces_at e P (bind m f).
Proof.
  intros (r & evs & Hevs & Hm) Hf.
  destruct r as [a | x].
  - destruct (Hf a) as (r' & evs' & Hevs' & Hfa).
    exists r', (evs ++ evs'); split; [by apply Forall_app |].
    intros o; unfold bind; rewrite Hm, Hfa; by rewrite app_assoc.
  - exists (Raise x), evs; split; [done |].
    intros o; unfold bind; by rewrite Hm.
Qed.

Lemma traces_getattr (o : PyObj) a : traces_at e P (getattr o a).
Proof.
  unfold getattr; destruct (o !! a);
    [apply traces_ret | apply traces_raise].
Qed.

Lemma traces_local var x : traces_at e P (local var x).
Proof. destruct x; [apply traces_ret | apply traces_raise]. Qed.

Lemma traces_getitem v i : traces_at e P (py_getitem v i).
Proof.
  destruct v as [| | | s | l]; unfold py_getitem; try apply traces_raise.
  - destruct (String.get i s); [apply traces_ret | apply traces_raise].
  - destruct (l !! i); [apply traces_ret | apply traces_raise].
Qed.

Lemma traces_engine_getattr a : traces_at e P (engine_getattr a).
Proof.
  destruct (engine_attrs e !! a) as [v |] eqn:Hlook.
  - exists (Val v), []; split; [constructor |].
    intros o; unfold engine_getattr, getattr; simpl.
    rewrite Hlook; unfold ret; by rewrite app_nil_r.
  - exists (Raise (AttributeError a)), []; split; [constructor |].
    intros o; unfold engine_getattr, getattr; simpl.
    rewrite Hlook; unfold raise; by rewrite app_nil_r.
Qed.

Lemma traces_engine_hasattr a : traces_at e P (engine_hasattr a).
Proof.
  exists (Val (hasattr (engine_attrs e) a)), []; split; [constructor |].
  intros o; unfold engine_hasattr; simpl; by rewrite app_nil_r.
Qed.

Lemma traces_format_filename v :
  P (Call (Eng.format_filename v)) -> traces_at e P (format_filename v).
Proof.
  intros Hev.
  exists (Val (engine_format e v)), [Call (Eng.format_filename v)].
  split; [by repeat constructor |].
  intros o; reflexivity.
Qed.

End Traces.

Lemma traces_ext e (P : event -> Prop) {A} (m m' : M A) :
  (forall st, m st = m' st) -> traces_at e P m' -> traces_at e P m.
Proof.
  intros Hext (r & evs & Hevs & Hm).
  exists r, evs; split; [done |].
  intros o; by rewrite Hext.
Qed.

Lemma traces_run (P : event -> Prop) {A} (m : M A) st r st' :
  traces_at (self_engine st) P m -> m st = (r, st') ->
  exists evs, st' = emits st evs /\ Forall P evs.
Proof.
  intros (r0 & evs & Hevs & Hm) Hrun.
  destruct st as [e o]; simpl in *.
  rewrite Hm in Hrun; injection Hrun as <- <-.
  by exists evs.
Qed.

(** One step of a trace argument: split a bind, close a leaf, or follow
    a branch of the code.  [H] proves [P] for the events the block may
    emit. *)
Ltac traces_side :=
  simpl; first [ done | auto; fail
               | match goal with
                 | H : forall ev, _ -> ?P ev |- ?P _ => by apply H
                 end ].

Ltac traces_step :=
  match goal with
  | |- traces_at _ _ (bind _ _) => apply traces_bind; [| intros ?]
  | |- traces_at _ _ (ret _) => apply traces_ret
  | |- traces_at _ _ (raise _) => apply traces_raise
  | |- traces_at _ _ (getattr _ _) => apply traces_getattr
  | |- traces_at _ _ (local _ _) => apply traces_local
  | |- traces_at _ _ (py_getitem _ _) => apply traces_getitem
  | |- traces_at _ _ (engine_getattr _) => apply traces_engine_getattr
  | |- traces_at _ _ (engine_hasattr _) => apply traces_engine_hasattr
  | |- traces_at _ _ (format_filename _) =>
      apply traces_format_filename; traces_side
  | |- traces_at _ _ (call _) => apply traces_call; traces_side
  | |- traces_at _ _ (emit _) => apply traces_emit; traces_side
  | |- traces_at _ _ (if ?b then _ else _) => destruct b eqn:?
  | |- traces_at _ _ (match ?x with _ => _ end) => destruct x eqn:?
  end.

Ltac traces_auto := repeat traces_step.

(** ** What each block may emit *)

Section Blocks.
Context (e : Engine) (P : event -> Prop).
Context (self : Script) (table_obj : PyObj).

Lemma resolve_url_traces url :
  traces_at e P (resolve_url self table_obj url).
Proof. unfold resolve_url; traces_auto. Qed.

Lemma process_archived_data_traces u :
  (forall ev, archive_call ev = true -> P ev) ->
  traces_at e P (process_archived_data self table_obj u).
Proof. intros H; unfold process_archived_data; traces_auto. Qed.

Lemma archive_stage_traces url :
  (forall ev, archive_call ev = true -> P ev) ->
  traces_at e P (archive_stage self table_obj url).
Proof.
  intros H; unfold archive_stage; traces_auto.
  by apply process_archived_data_traces.
Qed.

Lemma process_tables_traces u :
  (forall ev, creation ev || formatting ev = true -> P ev) ->
  traces_at e P (process_tables self table_obj u).
Proof. intros H; unfold process_tables; traces_auto. Qed.

Lemma create_stage_traces url :
  (forall ev, creation ev || formatting ev || diagnostic ev = true -> P ev) ->
  traces_at e P (create_stage self table_obj url).
Proof.
  intros H; unfold create_stage; traces_auto;
    apply process_tables_traces; intros ev Hev; apply H;
    by destruct ev as [[] |].
Qed.

Lemma process_tabular_insert_traces u :
  (forall ev, tabular_insert ev || formatting ev = true -> P ev) ->
  traces_at e P (process_tabular_insert self table_obj u).
Proof. intros H; unfold process_tabular_insert; traces_auto. Qed.

Lemma process_spatial_insert_traces :
  (forall ev, spatial_insert ev || formatting ev = true -> P ev) ->
  traces_at e P (process_spatial_insert table_obj).
Proof. intros H; unfold process_spatial_insert; traces_auto. Qed.

Lemma insert_stage_traces url :
  (forall ev, insertion ev || formatting ev = true -> P ev) ->
  traces_at e P (insert_stage self table_obj url).
Proof.
  intros H; unfold insert_stage; traces_auto.
  - apply process_spatial_insert_traces; intros ev Hev; apply H.
    by destruct ev as [[] |].
  - apply process_tabular_insert_traces; intros ev Hev; apply H.
    by destruct ev as [[] |].
Qed.

Lemma insert_block_traces url :
  (forall ev, insertion ev || formatting ev || cleanup ev = true -> P ev) ->
  traces_at e P (insert_block self table_obj url).
Proof.
  intros H; unfold insert_block; traces_auto.
  apply insert_stage_traces; intros ev Hev; apply H.
  by destruct ev as [[] |].
Qed.

(** An iteration is made of its four blocks. *)
Lemma loop_body_traces url :
  (forall url', traces_at e P (archive_stage self table_obj url')) ->
  (forall url', traces_at e P (create_stage self table_obj url')) ->
  (forall url', traces_at e P (insert_block self table_obj url')) ->
  traces_at e P (loop_body self table_obj url).
Proof.
  intros Ha Hc Hi; unfold loop_body; traces_auto; auto.
  apply resolve_url_traces.
Qed.

End Blocks.

Lemma for_tables_traces e (P : event -> Prop) self tables :
  (forall table_obj url, traces_at e P (loop_body self table_obj url)) ->
  forall url, traces_at e P (for_tables self tables url).
Proof.
  intros Hbody; induction tables as [| [k table_obj] rest IH]; intros url.
  - apply traces_ret.
  - simpl; apply traces_bind; [apply Hbody |].
    intros [[] url']; first [apply IH | apply traces_ret].
Qed.

(** Nothing in the loop reads the trace or touches the engine. *)
Lemma loop_body_frame e self table_obj url :
  traces_at e (fun _ => True) (loop_body self table_obj url).
Proof.
  apply loop_body_traces; intros url'.
  - by apply archive_stage_traces.
  - by apply create_stage_traces.
  - by apply insert_block_traces.
Qed.

Lemma for_tables_frame e self tables url :
  traces_at e (fun _ => True) (for_tables self tables url).
Proof. apply for_tables_traces; intros; apply loop_body_frame. Qed.

(** ** Running [download] again *)

(** Setting [debug] and [db_name] a second time changes nothing. *)
Lemma prologue_attrs_idem (m : PyObj) n d :
  <["db_name" := n]> (<["debug" := d]>
    (<["db_name" := n]> (<["debug" := d]> m)))
  = <["db_name" := n]> (<["debug" := d]> m).
Proof.
  apply map_eq; intros i.
  rewrite !lookup_insert; by repeat case_decide.
Qed.

Lemma Script_download_out ce self engine debug o :
  out (Script_download ce self engine debug o)
  = o ++ [Call Eng.get_input; Call Eng.set_engine_encoding;
          Call Eng.create_db].
Proof. unfold Script_download, checkengine; simpl; by rewrite <- app_assoc. Qed.

Lemma Script_download_engine ce self engine debug o o' :
  self_engine (Script_download ce self engine debug o)
  = self_engine (Script_download ce self engine debug o').
Proof. reflexivity. Qed.

(** The engine [Script.download] leaves is one it maps to itself. *)
Lemma Script_download_again ce self engine debug o o' :
  self_engine
    (Script_download ce self
       (Some (self_engine (Script_download ce self engine debug o)))
       debug o')
  = self_engine (Script_download ce self engine debug o).
Proof.
  unfold Script_download, checkengine; simpl.
  by rewrite prologue_attrs_idem.
Qed.

(** A whole run of [download] is a function of the script, its tables
    and the engine alone: whatever has been emitted before, a
    run returns the same result and appends the same sequence of engine
    calls, with the same arguments; and a second run on the engine the
    first one left behind repeats exactly that sequence. *)
Theorem download_idempotent ce self engine debug :
  exists r e' evs,
    (forall o, download ce self engine debug o
               = (r, {| self_engine := e'; out := o ++ evs |})) /\
    (forall o, download ce self (Some e') debug o
               = (r, {| self_engine := e'; out := o ++ evs |})).
Proof.
  set (e' := self_engine (Script_download ce self engine debug [])).
  destruct (for_tables_frame e' self (script_tables self) None)
    as (r & evs & _ & Hrun).
  set (pre := [Call Eng.get_input; Call Eng.set_engine_encoding;
               Call Eng.create_db]).
  exists r, e', (pre ++ evs).
  assert (Hgo : forall eng o,
    self_engine (Script_download ce self eng debug o) = e' ->
    download ce self eng debug o
    = (r, {| self_engine := e'; out := o ++ pre ++ evs |})).
  { intros eng o He; unfold download.
    pose proof (Script_download_out ce self eng debug o) as Ho.
    destruct (Script_download ce self eng debug o) as [e1 o1].
    simpl in He, Ho; subst e1 o1.
    by rewrite Hrun, <- app_assoc. }
  split; intros o; apply Hgo.
  - apply Script_download_engine.
  - apply Script_download_again.
Qed.

(** ** Running the blocks *)

(** Unfold the statements and evaluate them under the known lookups. *)
Ltac run_with tac :=
  unfold insert_block, insert_stage, create_stage, archive_stage,
    resolve_url, process_archived_data, process_tables,
    process_spatial_insert, process_tabular_insert;
  unfold format_filename, engine_getattr, engine_hasattr, getattr, local,
    py_getitem, call, emit, bind, ret, raise, hasattr;
  repeat (tac;
          repeat match goal with
                 | H : ?m !! ?k = _ |- context [?m !! ?k] => rewrite H
                 | H : ?b = _ |- context [if ?b then _ else _] => rewrite H
                 end);
  tac.

Ltac run := run_with ltac:(cbn [fst snd orb andb negb self_engine out emits]).

(** C6 (amended). [process_tabular_insert] inserts from the formatted
    file exactly when the script (the dataset) has an [archived]
    attribute or the table has a [path]; in that case the table must have
    a [path], otherwise the attribute access fails before any call.  In
    every other case it inserts from the URL.  An [archived] attribute of
    the table alone does not select the file. *)
Theorem process_tabular_insert_source self table_obj u st :
  process_tabular_insert self table_obj u st =
    if hasattr (script_attrs self) "archived" || hasattr table_obj "path"
    then
      match table_obj !! "path" with
      | Some p =>
          (Val tt,
           emits st [Call (Eng.format_filename p);
                     Call (Eng.insert_data_from_file
                             (engine_format (self_engine st) p))])
      | None => (Raise (AttributeError "path"), st)
      end
    else (Val tt, emits st [Call (Eng.insert_data_from_url u)]).
Proof.
  unfold process_tabular_insert.
  destruct (hasattr (script_attrs self) "archived" || hasattr table_obj "path");
    [| reflexivity].
  destruct (table_obj !! "path") as [p |] eqn:Hp; run; [| reflexivity].
  by rewrite emits_emits.
Qed.

(** C6, as stated, fails: the table is archived (its archive is fetched
    and extracted), it has no [path] and the dataset has no [archived]
    attribute, and the rows are inserted from the URL. *)
Lemma archived_table_inserts_from_url :
  hasattr zip_table "archived" = true /\
  out (snd (download plain_engine zip_script (Some plain_engine)
              (PBool false) []))
  = [Call Eng.get_input; Call Eng.set_engine_encoding; Call Eng.create_db;
     Call (Eng.download_files_from_archive (PStr "http://x/data.zip") PNone
             (PStr "zip") (PBool false) PNone);
     Call (Eng.auto_create_table zip_table (PStr "http://x/data.zip") None);
     Call (Eng.insert_data_from_url (PStr "http://x/data.zip"));
     Call Eng.disconnect_files].
Proof. split; reflexivity. Qed.

Lemma resolve_url_state self table_obj url st r st' :
  resolve_url self table_obj url st = (r, st') -> st' = st.
Proof.
  intros Hrun.
  destruct (traces_run (fun _ => False) _ st r st'
              (resolve_url_traces _ _ self table_obj url) Hrun)
    as (evs & -> & Hevs).
  destruct Hevs as [| ev evs []]; apply emits_nil.
Qed.

Lemma archive_stage_emits self table_obj url st r st' :
  archive_stage self table_obj url st = (r, st') ->
  exists evs, st' = emits st evs /\
    Forall (fun ev => archive_call ev = true) evs.
Proof.
  apply traces_run, archive_stage_traces; auto.
Qed.

(** The [else] branch of line 136. *)
Lemma create_stage_mismatch self table_obj url st ss n :
  (forall f, table_obj !! "format" = Some f -> py_eq_str f "tabular" = false) ->
  engine_attrs (self_engine st) !! "spatial_support" = Some ss ->
  truthy ss = false ->
  engine_attrs (self_engine st) !! "name" = Some n ->
  create_stage self table_obj url st
  = (Val Return, emits st [Print spatial_template n]).
Proof.
  intros Hfmt Hss Hfalse Hn.
  destruct (table_obj !! "format") as [f |] eqn:Hf;
    [specialize (Hfmt f eq_refl) |]; by run.
Qed.

(** Neither branch of lines 131-139 is taken. *)
Lemma create_stage_skipped self table_obj url st :
  (forall f, table_obj !! "format" = Some f -> py_eq_str f "tabular" = false) ->
  engine_attrs (self_engine st) !! "spatial_support" = None ->
  create_stage self table_obj url st = (Val Fallthrough, st).
Proof.
  intros Hfmt Hss.
  destruct (table_obj !! "format") as [f |] eqn:Hf;
    [specialize (Hfmt f eq_refl) |]; by run.
Qed.

(** C1 (amended). When the table's format is not "tabular" and the
    engine's [spatial_support] is false, the table's pass ends with the
    diagnostic naming the engine, right after the blocks that precede the
    table-creation block (URL resolution and archive extraction, which
    make no insertion call); [download] then returns: the tables that
    follow in the dataset are not processed, whatever they are. *)
Theorem capability_mismatch_returns self k table_obj rest url st ss n url' st1 :
  (forall f, table_obj !! "format" = Some f -> py_eq_str f "tabular" = false) ->
  engine_attrs (self_engine st) !! "spatial_support" = Some ss ->
  truthy ss = false ->
  engine_attrs (self_engine st) !! "name" = Some n ->
  resolve_url self table_obj url st = (Val url', st) ->
  archive_stage self table_obj url' st = (Val tt, st1) ->
  for_tables self ((k, table_obj) :: rest) url st
  = (Val tt, emits st1 [Print spatial_template n]) /\
  exists evs, st1 = emits st evs /\ Forall (fun ev => insertion ev = false) evs.
Proof.
  intros Hfmt Hss Hfalse Hn Hurl Harch.
  destruct (archive_stage_emits _ _ _ _ _ _ Harch) as (evs & -> & Hevs).
  split.
  - simpl; unfold loop_body, bind at 1 2 3 4.
    rewrite Hurl, Harch.
    by rewrite (create_stage_mismatch self table_obj url' _ ss n).
  - exists evs; split; [done |].
    eapply Forall_impl; [exact Hevs |].
    by intros [[] |].
Qed.

Lemma capability_mismatch_returns_witness :
  for_tables two_tables [("a", raster_table); ("b", csv_table)] None
    (state_of plain_engine)
  = (Val tt,
     emits (state_of plain_engine) [Print spatial_template (PStr "csv")]) /\
  exists evs,
    state_of plain_engine = emits (state_of plain_engine) evs /\
    Forall (fun ev => insertion ev = false) evs.
Proof.
  apply (capability_mismatch_returns two_tables "a" raster_table
           [("b", csv_table)] None (state_of plain_engine) (PBool false)
           (PStr "csv") (Some (PStr "http://x")) (state_of plain_engine)).
  - intros f Hf; vm_compute in Hf; discriminate.
  - reflexivity.
  - reflexivity.
  - reflexivity.
  - reflexivity.
  - reflexivity.
Defined.

(** C1, as stated, fails: with a raster table first and an engine whose
    [spatial_support] is [False], [download] prints the diagnostic and
    returns; the CSV table that follows gets no engine call at all,
    although on its own it is created, loaded and cleaned up. *)
Lemma siblings_not_processed :
  download plain_engine two_tables (Some plain_engine) (PBool false) []
  = (Val tt,
     {| self_engine :=
          self_engine (Script_download plain_engine two_tables
                         (Some plain_engine) (PBool false) []);
        out := [Call Eng.get_input; Call Eng.set_engine_encoding;
                Call Eng.create_db;
                Print spatial_template (PStr "csv")] |}) /\
  for_tables two_tables [("b", csv_table)] None (state_of plain_engine)
  = (Val tt,
     emits (state_of plain_engine)
       [Call (Eng.auto_create_table csv_table (PStr "http://x/b.csv") None);
        Call (Eng.insert_data_from_url (PStr "http://x/b.csv"));
        Call Eng.disconnect_files]).
Proof. split; reflexivity. Qed.

(** C10. When the table's format is absent or not "tabular" and the
    engine object has no [spatial_support] attribute at all, the
    table-creation block does nothing: it makes no call and prints
    nothing, and the iteration is URL resolution, archive extraction and
    then the insertion block, so that no table-creation call and no
    diagnostic appear anywhere in the table's pass. *)
Theorem missing_capability_flag_skips_creation self table_obj url st :
  (forall f, table_obj !! "format" = Some f -> py_eq_str f "tabular" = false) ->
  engine_attrs (self_engine st) !! "spatial_support" = None ->
  (forall url', create_stage self table_obj url' st = (Val Fallthrough, st)) /\
  loop_body self table_obj url st
  = (url' ← resolve_url self table_obj url;
     archive_stage self table_obj url';;
     i ← insert_block self table_obj url';
     ret (i, url')) st /\
  forall r st', loop_body self table_obj url st = (r, st') ->
    exists evs, st' = emits st evs /\
      Forall (fun ev => creation ev = false /\ diagnostic ev = false) evs.
Proof.
  intros Hfmt Hss.
  assert (Heq : loop_body self table_obj url st
    = (url' ← resolve_url self table_obj url;
       archive_stage self table_obj url';;
       i ← insert_block self table_obj url';
       ret (i, url')) st).
  { unfold loop_body, bind.
    destruct (resolve_url self table_obj url st) as [[url' | x] s0] eqn:Hurl;
      [| done].
    apply resolve_url_state in Hurl as ->.
    destruct (archive_stage self table_obj url' st) as [[[] | x] s1] eqn:Harch;
      [| done].
    destruct (archive_stage_emits _ _ _ _ _ _ Harch) as (evs & -> & _).
    by rewrite create_stage_skipped. }
  split; [intros url'; by apply create_stage_skipped |].
  split; [exact Heq |].
  intros r st'; rewrite Heq; apply traces_run.
  traces_auto.
  - apply resolve_url_traces.
  - apply archive_stage_traces; by intros [[] |].
  - apply insert_block_traces; by intros [[] |].
Qed.

Lemma missing_capability_flag_skips_creation_witness :
  (forall url',
     create_stage two_tables raster_table url' (state_of bare_engine)
     = (Val Fallthrough, state_of bare_engine)) /\
  loop_body two_tables raster_table None (state_of bare_engine)
  = (url' ← resolve_url two_tables raster_table None;
     archive_stage two_tables raster_table url';;
     i ← insert_block two_tables raster_table url';
     ret (i, url')) (state_of bare_engine) /\
  forall r st',
    loop_body two_tables raster_table None (state_of bare_engine) = (r, st') ->
    exists evs, st' = emits (state_of bare_engine) evs /\
      Forall (fun ev => creation ev = false /\ diagnostic ev = false) evs.
Proof.
  apply (missing_capability_flag_skips_creation two_tables raster_table None
           (state_of bare_engine)).
  - intros f Hf; vm_compute in Hf; discriminate.
  - reflexivity.
Defined.


(** C3, as stated, fails: with both attributes on the table the geojson
    conversion is invoked, after the spreadsheet conversion, in the same
    pass. *)
Lemma geojson_after_spreadsheet :
  hasattr mixed_table "xls_sheets" = true /\
  hasattr mixed_table "geojson_data" = true /\
  exists before after,
    out (snd (download plain_engine mixed_script (Some plain_engine)
                (PBool false) []))
    = before
      ++ Call (Eng.excel_to_csv (PStr "raw_data/book.xlsx")
                 (PStr "raw_data/out.csv")
                 (PList [PInt 0; PStr "book.xlsx"]) (PStr "utf-8"))
      :: Call (Eng.format_filename (PStr "geo.json"))
      :: Call (Eng.format_filename (PStr "out.csv"))
      :: Call (Eng.download_file (PStr "http://x") (PStr "geo.json"))
      :: Call (Eng.process_geojson2csv (PStr "raw_data/geo.json")
                 (PStr "raw_data/out.csv"))
      :: after.
Proof.
  split; [reflexivity |]; split; [reflexivity |].
  exists [Call Eng.get_input; Call Eng.set_engine_encoding;
          Call Eng.create_db;
          Call (Eng.format_filename (PStr "book.xlsx"));
          Call (Eng.format_filename (PStr "out.csv"));
          Call (Eng.download_file (PStr "http://x") (PStr "book.xlsx"))],
         [Call (Eng.auto_create_table mixed_table (PStr "http://x")
                  (Some (PStr "out.csv")));
          Call Eng.disconnect_files].
  reflexivity.
Qed.

(** ** The shape of one iteration *)

Lemma loop_body_inv self table_obj url st sig url' st' :
  loop_body self table_obj url st = (Val (sig, url'), st') ->
  exists s1 s2 c,
    resolve_url self table_obj url st = (Val url', st) /\
    archive_stage self table_obj url' st = (Val tt, s1) /\
    create_stage self table_obj url' s1 = (Val c, s2) /\
    match c with
    | Return => sig = Return /\ st' = s2
    | _ => insert_block self table_obj url' s2 = (Val sig, st')
    end.
Proof.
  unfold loop_body, bind.
  destruct (resolve_url self table_obj url st) as [[u | x] s0] eqn:Hurl;
    [| done].
  pose proof (resolve_url_state _ _ _ _ _ _ Hurl) as ->.
  destruct (archive_stage self table_obj u st) as [[[] | x] s1] eqn:Harch;
    [| done].
  destruct (create_stage self table_obj u s1) as [[c | x] s2] eqn:Hcreate;
    [| done].
  destruct c;
    try (destruct (insert_block self table_obj u s2) as [[i | x] s3] eqn:Hins;
         [| done]);
    unfold ret; intros [= <- <- <-];
    eexists s1, s2, _;
    (split; [done |]; split; [done |]; split; [exact Hcreate |]); done.
Qed.

Lemma insert_stage_signal self table_obj url st i st' :
  insert_stage self table_obj url st = (Val i, st') ->
  i = if spatial_kind table_obj then Continue else Fallthrough.
Proof.
  unfold insert_stage, spatial_kind, hasattr, bind, getattr, ret.
  destruct (table_obj !! "dataset_type") as [dt |]; [| by intros [= <- _]].
  destruct (py_in_strs dt _).
  - destruct (process_spatial_insert table_obj st) as [[[] | x] s]; [| done].
    by intros [= <- _].
  - destruct (local "url" url st) as [[u | x] s]; [| done].
    destruct (process_tabular_insert self table_obj u s) as [[[] | x] s'];
      [| done].
    by intros [= <- _].
Qed.

Lemma insert_stage_emits self table_obj url st r st' :
  insert_stage self table_obj url st = (r, st') ->
  exists evs, st' = emits st evs /\
    Forall (fun ev => insertion ev || formatting ev = true) evs.
Proof. apply traces_run, insert_stage_traces; auto. Qed.

(** Line 145: after a spatial insertion the loop continues. *)
Lemma insert_block_spatial self table_obj url st :
  spatial_kind table_obj = true ->
  insert_block self table_obj url st
  = (process_spatial_insert table_obj;; ret Continue) st.
Proof.
  unfold spatial_kind, insert_block, insert_stage, hasattr, bind, getattr, ret.
  destruct (table_obj !! "dataset_type") as [dt |]; [| done].
  intros ->.
  by destruct (process_spatial_insert table_obj st) as [[[] | x] s].
Qed.

(** Lines 147-149: otherwise the block ends with [disconnect_files]. *)
Lemma insert_block_plain self table_obj url st sig st' :
  spatial_kind table_obj = false ->
  insert_block self table_obj url st = (Val sig, st') ->
  sig = Fallthrough /\
  exists evs, st' = emits st (evs ++ [Call Eng.disconnect_files]) /\
    Forall (fun ev => insertion ev || formatting ev = true) evs.
Proof.
  intros Hkind; unfold insert_block, bind.
  destruct (insert_stage self table_obj url st) as [[i | x] s1] eqn:Hins;
    [| done].
  pose proof (insert_stage_signal _ _ _ _ _ _ Hins) as ->.
  destruct (insert_stage_emits _ _ _ _ _ _ Hins) as (evs & -> & Hevs).
  rewrite Hkind; unfold call, emit, ret; intros [= <- <-].
  split; [done |].
  exists evs; by rewrite emits_emits.
Qed.


Lemma create_stage_emits self table_obj url st r st' :
  create_stage self table_obj url st = (r, st') ->
  exists evs, st' = emits st evs /\
    Forall (fun ev => creation ev || formatting ev || diagnostic ev = true) evs.
Proof. apply traces_run, create_stage_traces; auto. Qed.

Lemma process_spatial_insert_emits table_obj st r st' :
  process_spatial_insert table_obj st = (r, st') ->
  exists evs, st' = emits st evs /\
    Forall (fun ev => spatial_insert ev || formatting ev = true) evs.
Proof. apply traces_run, process_spatial_insert_traces; auto. Qed.

(** The events of an iteration that ended without [return], block by
    block: archive extraction, table creation, insertion block. *)
Lemma loop_body_blocks self table_obj url st sig url' st' :
  loop_body self table_obj url st = (Val (sig, url'), st') ->
  sig <> Return ->
  exists pre s2,
    s2 = emits st pre /\
    Forall (fun ev => archive_call ev || creation ev || formatting ev
                      || diagnostic ev = true) pre /\
    insert_block self table_obj url' s2 = (Val sig, st').
Proof.
  intros Hrun Hsig.
  destruct (loop_body_inv _ _ _ _ _ _ _ Hrun)
    as (s1 & s2 & c & _ & Harch & Hcreate & Hrest).
  destruct (archive_stage_emits _ _ _ _ _ _ Harch) as (e1 & -> & He1).
  destruct (create_stage_emits _ _ _ _ _ _ Hcreate) as (e2 & -> & He2).
  exists (e1 ++ e2), (emits (emits st e1) e2).
  split; [by rewrite emits_emits |].
  split.
  - apply Forall_app; split; (eapply Forall_impl; [eassumption |]);
      by intros [[] |].
  - destruct c; [done | done | by destruct Hrest].
Qed.

(** C5 (amended). For every table whose pass completes without the
    capability abort and for which no raster or vector insertion is
    selected, [disconnect_files] is the last call of the pass, after the
    insertion stage, whether or not the optional stages ran.  When a
    raster or vector insertion is selected the loop continues with the
    next table and the pass contains no [disconnect_files] call. *)
Theorem cleanup_unless_spatial self table_obj url st sig url' st' :
  loop_body self table_obj url st = (Val (sig, url'), st') ->
  sig <> Return ->
  if spatial_kind table_obj then
    sig = Continue /\
    exists evs, st' = emits st evs /\ Forall (fun ev => cleanup ev = false) evs
  else
    sig = Fallthrough /\
    exists evs, st' = emits st (evs ++ [Call Eng.disconnect_files]) /\
      Forall (fun ev => cleanup ev = false) evs.
Proof.
  intros Hrun Hsig.
  destruct (loop_body_blocks _ _ _ _ _ _ _ Hrun Hsig)
    as (pre & s2 & -> & Hpre & Hins).
  assert (Hpre' : Forall (fun ev => cleanup ev = false) pre).
  { eapply Forall_impl; [exact Hpre |]; by intros [[] |]. }
  destruct (spatial_kind table_obj) eqn:Hkind.
  - rewrite insert_block_spatial in Hins by done.
    unfold bind in Hins.
    destruct (process_spatial_insert table_obj (emits st pre))
      as [[[] | x] s3] eqn:Hsp; [| done].
    injection Hins as <- <-.
    destruct (process_spatial_insert_emits _ _ _ _ Hsp) as (evs & -> & Hevs).
    split; [done |].
    exists (pre ++ evs); split; [by rewrite emits_emits |].
    apply Forall_app; split; [done |].
    eapply Forall_impl; [exact Hevs |]; by intros [[] |].
  - destruct (insert_block_plain _ _ _ _ _ _ Hkind Hins)
      as (-> & evs & -> & Hevs).
    split; [done |].
    exists (pre ++ evs); split; [by rewrite emits_emits, app_assoc |].
    apply Forall_app; split; [done |].
    eapply Forall_impl; [exact Hevs |]; by intros [[] |].
Qed.

Lemma cleanup_unless_spatial_witness :
  Fallthrough = Fallthrough /\
  exists evs,
    emits (state_of plain_engine)
      [Call (Eng.auto_create_table csv_table (PStr "http://x/b.csv") None);
       Call (Eng.insert_data_from_url (PStr "http://x/b.csv"));
       Call Eng.disconnect_files]
    = emits (state_of plain_engine) (evs ++ [Call Eng.disconnect_files]) /\
    Forall (fun ev => cleanup ev = false) evs.
Proof.
  apply (cleanup_unless_spatial two_tables csv_table None
           (state_of plain_engine) Fallthrough
           (Some (PStr "http://x/b.csv"))).
  - reflexivity.
  - discriminate.
Defined.

(** C5, as stated, fails: the raster table completes its pass (the
    engine supports spatial data, the table is created and the raster
    is inserted) and [disconnect_files] is never called. *)
Lemma raster_pass_without_cleanup :
  download spatial_engine
    (script_of [("url", PStr "http://x")] [("a", raster_table)])
    (Some spatial_engine) (PBool false) []
  = (Val tt,
     {| self_engine :=
          self_engine
            (Script_download spatial_engine
               (script_of [("url", PStr "http://x")] [("a", raster_table)])
               (Some spatial_engine) (PBool false) []);
        out := [Call Eng.get_input; Call Eng.set_engine_encoding;
                Call Eng.create_db;
                Call (Eng.auto_create_table raster_table (PStr "http://x")
                        (Some (PStr "a.tif")));
                Call (Eng.format_filename (PStr "a.tif"));
                Call (Eng.insert_raster (PStr "raw_data/a.tif"))] |}).
Proof. reflexivity. Qed.

(** ** Source resolution *)

Lemma resolve_url_own self table_obj url st v :
  table_obj !! "url" = Some v -> truthy v = true ->
  resolve_url self table_obj url st = (Val (Some v), st).
Proof. intros Hv Ht; by run. Qed.

Lemma resolve_url_default self table_obj url st v :
  (forall w, table_obj !! "url" = Some w -> truthy w = false) ->
  script_attrs self !! "url" = Some v -> truthy v = true ->
  resolve_url self table_obj url st = (Val (Some v), st).
Proof.
  intros Hown Hv Ht.
  destruct (table_obj !! "url") as [w |] eqn:Hw;
    [specialize (Hown w eq_refl) |]; by run.
Qed.

(** No [url] attribute on the script: the access on line 123 raises. *)
Lemma resolve_url_missing self table_obj url st :
  (forall w, table_obj !! "url" = Some w -> truthy w = false) ->
  script_attrs self !! "url" = None ->
  resolve_url self table_obj url st = (Raise (AttributeError "url"), st).
Proof.
  intros Hown Hv.
  destruct (table_obj !! "url") as [w |] eqn:Hw;
    [specialize (Hown w eq_refl) |]; by run.
Qed.

(** An empty [url] on the script: nothing is assigned and nothing is
    raised; [url] stays what the previous iteration left. *)
Lemma resolve_url_stale self table_obj url st v :
  (forall w, table_obj !! "url" = Some w -> truthy w = false) ->
  script_attrs self !! "url" = Some v -> truthy v = false ->
  resolve_url self table_obj url st = (Val url, st).
Proof.
  intros Hown Hv Ht.
  destruct (table_obj !! "url") as [w |] eqn:Hw;
    [specialize (Hown w eq_refl) |]; by run.
Qed.

(** C4: the behaviour of the code where the claim fails.  The dataset's
    [url] is empty and table "b" has no [url]: no error is raised, and
    "b" is created and loaded from the URL of table "a". *)
Theorem unresolved_url_reuses_previous :
  hasattr second_table "url" = false /\
  script_attrs no_default_url !! "url" = Some (PStr "") /\
  download plain_engine no_default_url (Some plain_engine) (PBool false) []
  = (Val tt,
     {| self_engine :=
          self_engine (Script_download plain_engine no_default_url
                         (Some plain_engine) (PBool false) []);
        out := [Call Eng.get_input; Call Eng.set_engine_encoding;
                Call Eng.create_db;
                Call (Eng.auto_create_table first_table
                        (PStr "http://x/a.csv") None);
                Call (Eng.insert_data_from_url (PStr "http://x/a.csv"));
                Call Eng.disconnect_files;
                Call (Eng.auto_create_table second_table
                        (PStr "http://x/a.csv") None);
                Call (Eng.insert_data_from_url (PStr "http://x/a.csv"));
                Call Eng.disconnect_files] |}).
Proof. repeat split; reflexivity. Qed.

(** With the same empty dataset [url], a first table with no URL of its
    own reaches the engine as well: the raster is inserted although
    [url] was never bound. *)
Lemma unbound_url_reaches_engine :
  out (snd (download bare_engine
              (script_of [("url", PStr "")] [("a", raster_table)])
              (Some bare_engine) (PBool false) []))
  = [Call Eng.get_input; Call Eng.set_engine_encoding; Call Eng.create_db;
     Call (Eng.format_filename (PStr "a.tif"));
     Call (Eng.insert_raster (PStr "raw_data/a.tif"))].
Proof. reflexivity. Qed.

(** ** Further properties of the pipeline *)

Lemma bind_inv {A B} (m : M A) (f : A -> M B) st b st' :
  bind m f st = (Val b, st') ->
  exists a s1, m st = (Val a, s1) /\ f a s1 = (Val b, st').
Proof.
  unfold bind; destruct (m st) as [[a | x] s1]; [| done].
  intros H; by exists a, s1.
Qed.

(** The archive block with a dataset that has [extract_all]: whatever
    the value of the attribute, even [False], the whole archive is
    extracted ([file_names] is [None]) unless the table has
    [xls_sheets]; and the block cannot fail. *)
Theorem extract_all_value_ignored self table_obj u st ea :
  script_attrs self !! "extract_all" = Some ea ->
  table_obj !! "xls_sheets" = None ->
  exists archive_type keep_in_dir archive_name,
    process_archived_data self table_obj u st
    = (Val tt,
       emits st [Call (Eng.download_files_from_archive u PNone archive_type
                         keep_in_dir archive_name)]).
Proof.
  intros Hea Hx.
  destruct (table_obj !! "archived") eqn:?,
           (script_attrs self !! "archived") eqn:?,
           (script_attrs self !! "keep_in_dir") eqn:?,
           (script_attrs self !! "archive_name") eqn:?;
    run; destruct (truthy ea); by eexists _, _, _.
Qed.

Lemma extract_all_value_ignored_witness :
  exists archive_type keep_in_dir archive_name,
    process_archived_data
      (script_of [("url", PStr "http://x/data.zip");
                  ("extract_all", PBool false)] [])
      zip_table (PStr "http://x/data.zip") (state_of plain_engine)
    = (Val tt,
       emits (state_of plain_engine)
         [Call (Eng.download_files_from_archive (PStr "http://x/data.zip")
                  PNone archive_type keep_in_dir archive_name)]).
Proof.
  apply (extract_all_value_ignored
           (script_of [("url", PStr "http://x/data.zip");
                       ("extract_all", PBool false)] [])
           zip_table (PStr "http://x/data.zip") (state_of plain_engine)
           (PBool false));
    reflexivity.
Defined.

(** Without [extract_all] on the dataset the archive block reads the
    table's [path] first: a table without [path] makes it raise
    [AttributeError] before the engine is called, also when [xls_sheets]
    would have replaced the file list. *)
Theorem archive_needs_path self table_obj u st :
  script_attrs self !! "extract_all" = None ->
  table_obj !! "path" = None ->
  process_archived_data self table_obj u st
  = (Raise (AttributeError "path"), st).
Proof.
  intros Hea Hp.
  destruct (table_obj !! "archived") eqn:?,
           (script_attrs self !! "archived") eqn:?; by run.
Qed.

Lemma archive_needs_path_witness :
  process_archived_data two_tables pathless_workbook (PStr "http://x")
    (state_of plain_engine)
  = (Raise (AttributeError "path"), state_of plain_engine).
Proof.
  apply (archive_needs_path two_tables pathless_workbook (PStr "http://x")
           (state_of plain_engine));
    reflexivity.
Defined.

Lemma created_tables_none evs :
  Forall (fun ev => created ev = None) evs -> created_tables evs = [].
Proof.
  unfold created_tables.
  induction 1 as [| ev evs Hev _ IH]; [done |].
  cbn [omap list_omap]; by rewrite Hev.
Qed.

Lemma created_tables_app evs evs' :
  created_tables (evs ++ evs') = created_tables evs ++ created_tables evs'.
Proof. apply omap_app. Qed.

Lemma process_tables_emits self table_obj u st r st' :
  process_tables self table_obj u st = (r, st') ->
  exists evs, st' = emits st evs /\
    Forall (fun ev => creation ev || formatting ev = true) evs.
Proof. apply traces_run, process_tables_traces; auto. Qed.

(** Whatever [process_tables] converts, it ends by creating the table
    it was given, and nothing before that creates a table. *)
Lemma process_tables_ends self table_obj u st st' :
  process_tables self table_obj u st = (Val tt, st') ->
  exists evs,
    st' = emits st (evs ++ [Call (Eng.auto_create_table table_obj u
                                    (table_obj !! "path"))]) /\
    Forall (fun ev => created ev = None) evs.
Proof.
  unfold process_tables; intros Hrun.
  apply bind_inv in Hrun as ([] & s1 & Hxls & Hrun).
  apply bind_inv in Hrun as ([] & s2 & Hgeo & Hrun).
  apply (traces_run (fun ev => created ev = None)) in Hxls as (e1 & -> & He1);
    [| traces_auto].
  apply (traces_run (fun ev => created ev = None)) in Hgeo as (e2 & -> & He2);
    [| traces_auto].
  exists (e1 ++ e2); split; [| by apply Forall_app].
  revert Hrun; unfold hasattr, bind, getattr, call, emit, ret.
  destruct (table_obj !! "path") as [p |]; intros [= <-];
    by rewrite !emits_emits, <- app_assoc.
Qed.

(** Table creation, lines 185-188: every run of [process_tables] that
    returns has created the table as its last call, from the local file
    when the table has a [path] ([filename] is that path) and from the
    URL alone otherwise, and no earlier call of the run creates a table.
    With neither [xls_sheets] nor [geojson_data] the creation is the
    only call and nothing can fail. *)
Theorem table_created_last self table_obj u st :
  (forall st',
     process_tables self table_obj u st = (Val tt, st') ->
     exists evs,
       st' = emits st (evs ++ [Call (Eng.auto_create_table table_obj u
                                       (table_obj !! "path"))]) /\
       created_tables evs = []) /\
  (table_obj !! "xls_sheets" = None ->
   table_obj !! "geojson_data" = None ->
   process_tables self table_obj u st
   = (Val tt,
      emits st [Call (Eng.auto_create_table table_obj u
                        (table_obj !! "path"))])).
Proof.
  split.
  - intros st' Hrun.
    destruct (process_tables_ends _ _ _ _ _ Hrun) as (evs & -> & Hevs).
    exists evs; split; [done |].
    by apply created_tables_none.
  - intros Hx Hg.
    destruct (table_obj !! "path") as [p |] eqn:Hp; run;
      by rewrite ?emits_emits.
Qed.

Lemma table_created_last_witness :
  process_tables two_tables csv_table (PStr "http://x/b.csv")
    (state_of plain_engine)
  = (Val tt,
     emits (state_of plain_engine)
       [Call (Eng.auto_create_table csv_table (PStr "http://x/b.csv")
                (csv_table !! "path"))]).
Proof.
  apply (proj2 (table_created_last two_tables csv_table
                  (PStr "http://x/b.csv") (state_of plain_engine)));
    reflexivity.
Defined.

(** A sheet selector with fewer than two elements is rejected with
    [IndexError] by [process_tables] before any engine call: nothing is
    downloaded, converted or created. *)
Theorem short_sheet_selector_rejected self table_obj u st l :
  table_obj !! "xls_sheets" = Some (PList l) ->
  length l < 2 ->
  process_tables self table_obj u st = (Raise IndexError, st).
Proof.
  intros Hx Hlen.
  destruct l as [| a [| b l]]; simpl in Hlen; [| | lia]; by run.
Qed.

Lemma short_sheet_selector_rejected_witness :
  process_tables two_tables (obj [("xls_sheets", PList [PStr "book.xlsx"])])
    (PStr "http://x") (state_of plain_engine)
  = (Raise IndexError, state_of plain_engine).
Proof.
  apply (short_sheet_selector_rejected two_tables
           (obj [("xls_sheets", PList [PStr "book.xlsx"])])
           (PStr "http://x") (state_of plain_engine) [PStr "book.xlsx"]).
  - reflexivity.
  - simpl; lia.
Defined.

(** Lines 131-135: when the table is tabular or the engine supports
    spatial data, the creation block is a call of [process_tables]. *)
Lemma create_stage_creates self table_obj url st :
  creates (self_engine st) table_obj = true ->
  create_stage self table_obj url st
  = (u ← local "url" url;
     process_tables self table_obj u;;
     ret Fallthrough) st.
Proof.
  unfold creates; intros Hc.
  destruct (table_obj !! "format") as [f |] eqn:Hf;
    destruct (engine_attrs (self_engine st) !! "spatial_support")
      as [ss |] eqn:Hss;
    try destruct (py_eq_str f "tabular") eqn:Hpy;
    simpl in Hc; try done;
    unfold create_stage, engine_hasattr, engine_getattr, getattr, bind, ret;
    by repeat (rewrite ?Hf, ?Hpy, ?Hss, ?Hc; unfold hasattr; cbn beta iota).
Qed.

(** The creation block either prints the diagnostic and asks for
    [return], having called nothing, or it does not print. *)
Lemma create_stage_cases self table_obj url st r st' :
  create_stage self table_obj url st = (r, st') ->
  (r = Val Return /\
   exists n, engine_attrs (self_engine st) !! "name" = Some n /\
             st' = emits st [Print spatial_template n]) \/
  (r <> Val Return /\
   exists evs, st' = emits st evs /\
     Forall (fun ev => creation ev || formatting ev = true) evs).
Proof.
  assert (Hpt : forall s r0 s',
    (u ← local "url" url; process_tables self table_obj u;;
     ret Fallthrough) s = (r0, s') ->
    r0 <> Val Return /\
    exists evs, s' = emits s evs /\
      Forall (fun ev => creation ev || formatting ev = true) evs).
  { intros s r0 s'; unfold bind, local, ret, raise.
    destruct url as [u |].
    - destruct (process_tables self table_obj u s) as [[[] | x] s1] eqn:Hrun;
        intros [= <- <-]; (split; [done |]);
        eapply process_tables_emits, Hrun.
    - intros [= <- <-]; split; [done |].
      exists []; by rewrite emits_nil. }
  destruct (creates (self_engine st) table_obj) eqn:Hc.
  - rewrite create_stage_creates by done.
    intros Hrun; right; by apply Hpt.
  - unfold creates in Hc.
    destruct (table_obj !! "format") as [f |] eqn:Hf;
      destruct (engine_attrs (self_engine st) !! "spatial_support")
        as [ss |] eqn:Hss;
      try destruct (py_eq_str f "tabular") eqn:Hpy;
      simpl in Hc; try done;
      unfold create_stage, engine_hasattr, engine_getattr, getattr, bind,
        ret, raise, emit;
      repeat (rewrite ?Hf, ?Hpy, ?Hss, ?Hc; unfold hasattr; cbn beta iota);
      try (destruct (engine_attrs (self_engine st) !! "name") as [n |]);
      intros [= <- <-];
      first [ left; split; [done |]; by exists n
            | right; split; [done |]; exists []; by rewrite emits_nil ].
Qed.

Lemma insert_block_signal self table_obj url st sig st' :
  insert_block self table_obj url st = (Val sig, st') -> sig <> Return.
Proof.
  intros Hrun.
  apply bind_inv in Hrun as (i & s1 & Hins & Hrun).
  apply insert_stage_signal in Hins as ->.
  revert Hrun; unfold bind, call, emit, ret.
  destruct (spatial_kind table_obj); by intros [= <- _].
Qed.

Lemma insert_block_emits self table_obj url st r st' :
  insert_block self table_obj url st = (r, st') ->
  exists evs, st' = emits st evs /\
    Forall (fun ev => insertion ev || formatting ev || cleanup ev = true) evs.
Proof. apply traces_run, insert_block_traces; auto. Qed.

(** An iteration prints at most once, and only as its last event, just
    before asking for [return]. *)
Lemma loop_body_cases self table_obj url st r st' :
  loop_body self table_obj url st = (r, st') ->
  exists evs, st' = emits st evs /\
    ((exists url' n evs0,
        r = Val (Return, url') /\
        engine_attrs (self_engine st) !! "name" = Some n /\
        evs = evs0 ++ [Print spatial_template n] /\
        Forall (fun ev => diagnostic ev = false) evs0) \/
     ((forall url', r <> Val (Return, url')) /\
      Forall (fun ev => diagnostic ev = false) evs)).
Proof.
  unfold loop_body, bind.
  destruct (resolve_url self table_obj url st) as [[u | x] s0] eqn:Hurl.
  2: { apply resolve_url_state in Hurl as ->; intros [= <- <-].
       exists []; rewrite emits_nil; split; [done |]; by right. }
  apply resolve_url_state in Hurl as ->.
  destruct (archive_stage self table_obj u st) as [[[] | x] s1] eqn:Harch;
    destruct (archive_stage_emits _ _ _ _ _ _ Harch) as (e1 & -> & He1);
    assert (Forall (fun ev => diagnostic ev = false) e1)
      by (eapply Forall_impl; [exact He1 |]; by intros [[] |]).
  2: { intros [= <- <-]; exists e1; split; [done |]; by right. }
  destruct (create_stage self table_obj u (emits st e1)) as [r2 s2] eqn:Hc.
  apply create_stage_cases in Hc
    as [(-> & n & Hn & ->) | (Hne & e2 & -> & He2)].
  { unfold ret; intros [= <- <-].
    exists (e1 ++ [Print spatial_template n]);
      split; [by rewrite emits_emits |].
    left; by exists u, n, e1. }
  assert (Forall (fun ev => diagnostic ev = false) (e1 ++ e2)).
  { apply Forall_app; split; [done |].
    eapply Forall_impl; [exact He2 |]; by intros [[] |]. }
  destruct r2 as [c | x].
  2: { intros [= <- <-]; exists (e1 ++ e2).
       split; [by rewrite emits_emits |]; by right. }
  assert (Hblock : forall r0 s',
    (let (r1, s3) := insert_block self table_obj u (emits (emits st e1) e2) in
     match r1 with
     | Val i => ret (i, u) s3
     | Raise e => (Raise e, s3)
     end) = (r0, s') ->
    exists evs, s' = emits st evs /\
      ((forall url', r0 <> Val (Return, url')) /\
       Forall (fun ev => diagnostic ev = false) evs)).
  { intros r0 s'.
    destruct (insert_block self table_obj u (emits (emits st e1) e2))
      as [[i | x] s3] eqn:Hins;
      destruct (insert_block_emits _ _ _ _ _ _ Hins) as (e3 & -> & He3);
      unfold ret; intros [= <- <-];
      (exists ((e1 ++ e2) ++ e3);
       split; [by rewrite !emits_emits, app_assoc |]);
      (split;
       [| apply Forall_app; split; [done |];
          eapply Forall_impl; [exact He3 |]; by intros [[] |]]).
    - apply insert_block_signal in Hins.
      intros url' [= -> _]; done.
    - done. }
  destruct c; [| | done];
    intros Hrun; destruct (Hblock _ _ Hrun) as (evs & -> & Hevs);
    exists evs; (split; [done |]); by right.
Qed.

Lemma for_tables_cases self tables : forall url st r st',
  for_tables self tables url st = (r, st') ->
  exists evs, st' = emits st evs /\
    (Forall (fun ev => diagnostic ev = false) evs \/
     (r = Val tt /\
      exists n evs0,
        engine_attrs (self_engine st) !! "name" = Some n /\
        evs = evs0 ++ [Print spatial_template n] /\
        Forall (fun ev => diagnostic ev = false) evs0)).
Proof.
  induction tables as [| [k table_obj] rest IH]; intros url st r st'.
  - intros [= <- <-]; exists []; rewrite emits_nil; split; [done |].
    by left.
  - simpl; unfold bind at 1.
    destruct (loop_body self table_obj url st) as [r1 s1] eqn:Hbody.
    destruct (loop_body_cases _ _ _ _ _ _ Hbody)
      as (e1 & -> & [(url' & n & evs0 & -> & Hn & -> & Hevs0) | (Hne & He1)]).
    + unfold ret; intros [= <- <-].
      eexists; split; [done |]; right; split; [done |].
      by exists n, evs0.
    + destruct r1 as [[sig url'] | x].
      2: { intros [= <- <-]; exists e1; split; [done |]; by left. }
      assert (Hrest : for_tables self rest url' (emits st e1) = (r, st') ->
        exists evs, st' = emits st evs /\
          (Forall (fun ev => diagnostic ev = false) evs \/
           (r = Val tt /\
            exists n evs0,
              engine_attrs (self_engine st) !! "name" = Some n /\
              evs = evs0 ++ [Print spatial_template n] /\
              Forall (fun ev => diagnostic ev = false) evs0))).
      { intros Hrun.
        destruct (IH _ _ _ _ Hrun)
          as (e2 & -> & [He2 | (-> & n & evs0 & Hn & -> & Hevs0)]).
        - exists (e1 ++ e2); split; [by rewrite emits_emits |].
          left; by apply Forall_app.
        - exists (e1 ++ evs0 ++ [Print spatial_template n]).
          split; [by rewrite emits_emits |].
          right; split; [done |].
          exists n, (e1 ++ evs0); split; [done |].
          split; [by rewrite app_assoc | by apply Forall_app]. }
      destruct sig; [done | done | by destruct (Hne url')].
Qed.

(** The capability diagnostic is printed at most once in a run of
    [download], and nothing follows it: either no event of the run is a
    print, or the run returned normally and its last event is the
    diagnostic, naming the engine. *)
Theorem diagnostic_ends_run ce self engine debug o :
  let run := download ce self engine debug o in
  exists evs, out run.2 = o ++ evs /\
    (Forall (fun ev => diagnostic ev = false) evs \/
     (run.1 = Val tt /\
      exists n evs0,
        engine_attrs (default ce engine) !! "name" = Some n /\
        evs = evs0 ++ [Print spatial_template n] /\
        Forall (fun ev => diagnostic ev = false) evs0)).
Proof.
  intros run; subst run; unfold download.
  destruct (for_tables self (script_tables self) None
              (Script_download ce self engine debug o)) as [r st'] eqn:Hrun.
  set (pre := [Call Eng.get_input; Call Eng.set_engine_encoding;
               Call Eng.create_db]).
  destruct (for_tables_cases _ _ _ _ _ _ Hrun)
    as (evs & -> & [Hevs | (-> & n & evs0 & Hn & -> & Hevs0)]);
    cbn [fst snd]; unfold emits; cbn [out].
  - exists (pre ++ evs); split.
    + by rewrite Script_download_out, <- app_assoc.
    + left; apply Forall_app; split; [by repeat constructor | done].
  - exists (pre ++ evs0 ++ [Print spatial_template n]); split.
    + by rewrite Script_download_out, <- app_assoc.
    + right; split; [done |].
      exists n, (pre ++ evs0); split.
      * revert Hn; unfold Script_download, checkengine; simpl.
        rewrite !lookup_insert_ne by done.
        by destruct engine.
      * split; [by rewrite app_assoc |].
        apply Forall_app; split; [by repeat constructor | done].
Qed.


(** A pass on a table for which [process_tables] is called creates that
    table, once, unless it raises. *)
Lemma loop_body_creates self table_obj url st sig url' st' :
  creates (self_engine st) table_obj = true ->
  loop_body self table_obj url st = (Val (sig, url'), st') ->
  sig <> Return /\
  exists evs, st' = emits st evs /\ created_tables evs = [table_obj].
Proof.
  intros Hc Hrun.
  destruct (loop_body_inv _ _ _ _ _ _ _ Hrun)
    as (s1 & s2 & c & _ & Harch & Hcreate & Hrest).
  destruct (archive_stage_emits _ _ _ _ _ _ Harch) as (e1 & -> & He1).
  rewrite create_stage_creates in Hcreate by done.
  apply bind_inv in Hcreate as (u & s & Hu & Hcreate).
  assert (s = emits st e1) as ->
    by (destruct url'; simpl in Hu; by injection Hu as _ <-).
  apply bind_inv in Hcreate as ([] & s3 & Hpt & [= <- <-]).
  destruct (process_tables_ends _ _ _ _ _ Hpt) as (e2 & -> & He2).
  destruct (insert_block_emits _ _ _ _ _ _ Hrest) as (e3 & -> & He3).
  split; [by eapply insert_block_signal |].
  eexists; split; [by rewrite !emits_emits |].
  rewrite !created_tables_app.
  rewrite (created_tables_none e1), (created_tables_none e2),
    (created_tables_none e3); [done | | done |].
  - eapply Forall_impl; [exact He3 |]; by intros [[] |].
  - eapply Forall_impl; [exact He1 |]; by intros [[] |].
Qed.

Lemma for_tables_creates self tables : forall url st st',
  Forall (fun kt => creates (self_engine st) kt.2 = true) tables ->
  for_tables self tables url st = (Val tt, st') ->
  exists evs, st' = emits st evs /\ created_tables evs = tables.*2.
Proof.
  induction tables as [| [k table_obj] rest IH]; intros url st st' Hall.
  - intros [= <-]; exists []; by rewrite emits_nil.
  - apply Forall_cons in Hall as [Hc Hall]; simpl in Hc.
    simpl; intros Hrun.
    apply bind_inv in Hrun as ([sig url'] & s1 & Hbody & Hrun).
    destruct (loop_body_creates _ _ _ _ _ _ _ Hc Hbody)
      as (Hsig & e1 & -> & He1).
    assert (Hrest : for_tables self rest url' (emits st e1) = (Val tt, st'))
      by by destruct sig.
    destruct (IH url' (emits st e1) st' Hall Hrest) as (e2 & -> & He2).
    exists (e1 ++ e2); split; [by rewrite emits_emits |].
    by rewrite created_tables_app, He1, He2.
Qed.

(** If every table of the dataset is tabular or the engine supports
    spatial data, a [download] that returns has created every table of
    the dataset exactly once, in the order of the dict. *)
Theorem every_table_created ce self engine debug o st' :
  Forall (fun kt => creates (default ce engine) kt.2 = true)
         (script_tables self) ->
  download ce self engine debug o = (Val tt, st') ->
  exists evs,
    out st' = o ++ evs /\ created_tables evs = (script_tables self).*2.
Proof.
  unfold download; intros Hall Hrun.
  apply for_tables_creates in Hrun as (evs & -> & Hevs).
  - exists ([Call Eng.get_input; Call Eng.set_engine_encoding;
             Call Eng.create_db] ++ evs).
    split; [| done].
    unfold emits; cbn [out].
    by rewrite Script_download_out, <- app_assoc.
  - eapply Forall_impl; [exact Hall |].
    intros [k t]; unfold creates, Script_download, checkengine;
      cbn [self_engine engine_attrs snd].
    rewrite !lookup_insert_ne by done; by destruct engine.
Qed.

Lemma every_table_created_witness :
  let dataset :=
    script_of [("url", PStr "")] [("a", first_table); ("b", csv_table)] in
  exists evs,
    out (download plain_engine dataset None (PBool false) []).2 = [] ++ evs /\
    created_tables evs = [first_table; csv_table].
Proof.
  intros dataset.
  apply (every_table_created plain_engine dataset None (PBool false) []).
  - repeat constructor.
  - reflexivity.
Defined.

(** The order of the stages within one pass, whatever the table and
    however the pass ends (normally, by the capability abort or by an
    exception): first the archive extraction, then the calls of the
    table-creation path (or the diagnostic), then the insertion calls,
    and last, at most once, [disconnect_files]. *)
Theorem pass_order self table_obj url st r st' :
  loop_body self table_obj url st = (r, st') ->
  exists a c i d,
    st' = emits st (a ++ c ++ i ++ d) /\
    Forall (fun ev => archive_call ev = true) a /\
    Forall (fun ev => creation ev || formatting ev || diagnostic ev = true) c /\
    Forall (fun ev => insertion ev || formatting ev = true) i /\
    (d = [] \/ d = [Call Eng.disconnect_files]).
Proof.
  assert (Hnil : forall a c i s,
    s = emits (emits (emits st a) c) i ->
    s = emits st (a ++ c ++ i ++ [])).
  { intros a c i s ->; by rewrite !emits_emits, app_nil_r. }
  unfold loop_body, bind.
  destruct (resolve_url self table_obj url st) as [[u | x] s0] eqn:Hurl;
    apply resolve_url_state in Hurl as ->.
  2: { intros [= <- <-]; exists [], [], [], []; rewrite emits_nil.
       repeat split; auto. }
  destruct (archive_stage self table_obj u st) as [ra s1] eqn:Harch.
  destruct (archive_stage_emits _ _ _ _ _ _ Harch) as (a & -> & Ha).
  destruct ra as [[] | x].
  2: { intros [= <- <-]; exists a, [], [], [].
       split; [apply Hnil; by rewrite !emits_nil |]; repeat split; auto. }
  destruct (create_stage self table_obj u (emits st a)) as [rc s2] eqn:Hc.
  destruct (create_stage_emits _ _ _ _ _ _ Hc) as (c & -> & Hcev).
  assert (Hstop : forall r0,
    (r0, emits (emits st a) c) = (r, st') ->
    exists a c i d,
      st' = emits st (a ++ c ++ i ++ d) /\
      Forall (fun ev => archive_call ev = true) a /\
      Forall (fun ev => creation ev || formatting ev || diagnostic ev = true)
        c /\
      Forall (fun ev => insertion ev || formatting ev = true) i /\
      (d = [] \/ d = [Call Eng.disconnect_files])).
  { intros r0 [= <- <-]; exists a, c, [], [].
    split; [apply Hnil; by rewrite emits_nil |]; repeat split; auto. }
  destruct rc as [sig | x]; [| apply Hstop].
  destruct sig; [| | apply Hstop];
    (unfold insert_block, bind;
     destruct (insert_stage self table_obj u (emits (emits st a) c))
       as [ri s3] eqn:Hins;
     destruct (insert_stage_emits _ _ _ _ _ _ Hins) as (i & -> & Hi);
     destruct ri as [[] | x]; unfold call, emit, ret; intros [= <- <-];
     first
       [ exists a, c, i, [Call Eng.disconnect_files];
         split; [by rewrite !emits_emits |]; repeat split; auto
       | exists a, c, i, [];
         split; [by apply Hnil |]; repeat split; auto ]).
Qed.

Lemma pass_order_witness :
  exists a c i d,
    emits (state_of plain_engine)
      [Call (Eng.auto_create_table csv_table (PStr "http://x/b.csv") None);
       Call (Eng.insert_data_from_url (PStr "http://x/b.csv"));
       Call Eng.disconnect_files]
    = emits (state_of plain_engine) (a ++ c ++ i ++ d) /\
    Forall (fun ev => archive_call ev = true) a /\
    Forall (fun ev => creation ev || formatting ev || diagnostic ev = true) c /\
    Forall (fun ev => insertion ev || formatting ev = true) i /\
    (d = [] \/ d = [Call Eng.disconnect_files]).
Proof.
  apply (pass_order two_tables csv_table None (state_of plain_engine)
           (Val (Fallthrough, Some (PStr "http://x/b.csv")))).
  reflexivity.
Defined.

(** ** The URL the engine is given *)

Lemma traces_bind_ret e (P : event -> Prop) {A B} (a : A) (f : A -> M B) :
  traces_at e P (f a) -> traces_at e P (bind (ret a) f).
Proof. by apply traces_ext. Qed.

(** As [traces_auto], with the side conditions left to [side] and the
    value of a known binding kept. *)
Ltac traces_with side :=
  repeat
    match goal with
    | |- traces_at _ _ (bind (ret _) _) => apply traces_bind_ret
    | |- traces_at _ _ (bind _ _) => apply traces_bind; [| intros ?]
    | |- traces_at _ _ (ret _) => apply traces_ret
    | |- traces_at _ _ (raise _) => apply traces_raise
    | |- traces_at _ _ (getattr _ _) => apply traces_getattr
    | |- traces_at _ _ (local _ _) => apply traces_local
    | |- traces_at _ _ (py_getitem _ _) => apply traces_getitem
    | |- traces_at _ _ (engine_getattr _) => apply traces_engine_getattr
    | |- traces_at _ _ (engine_hasattr _) => apply traces_engine_hasattr
    | |- traces_at _ _ (format_filename _) =>
        apply traces_format_filename; side
    | |- traces_at _ _ (call _) => apply traces_call; side
    | |- traces_at _ _ (emit _) => apply traces_emit; side
    | |- traces_at _ _ (if ?b then _ else _) => destruct b eqn:?
    | |- traces_at _ _ (match ?x with _ => _ end) => destruct x eqn:?
    end.

(** Once [url] is bound to [v], the rest of the iteration hands no other
    URL to the engine. *)
Lemma pass_rest_url e self table_obj v :
  traces_at e (fun ev => forall u, url_arg ev = Some u -> u = v)
    (archive_stage self table_obj (Some v);;
     c ← create_stage self table_obj (Some v);
     match c with
     | Return => ret (Return, Some v)
     | _ => i ← insert_block self table_obj (Some v); ret (i, Some v)
     end).
Proof.
  unfold archive_stage, create_stage, insert_block, insert_stage,
    process_archived_data, process_tables, process_spatial_insert,
    process_tabular_insert, local; cbn beta iota.
  traces_with ltac:(simpl; intros ? ?; by simplify_eq).
Qed.

Lemma loop_body_url self table_obj url st v r st' :
  resolve_url self table_obj url st = (Val (Some v), st) ->
  loop_body self table_obj url st = (r, st') ->
  exists evs, st' = emits st evs /\
    Forall (fun ev => forall u, url_arg ev = Some u -> u = v) evs /\
    forall sig url', r = Val (sig, url') -> url' = Some v.
Proof.
  intros Hres Hrun.
  assert (Hurl : forall sig url', r = Val (sig, url') -> url' = Some v).
  { intros sig url' ->.
    destruct (loop_body_inv _ _ _ _ _ _ _ Hrun) as (_ & _ & _ & Hres' & _).
    rewrite Hres in Hres'; by injection Hres' as <-. }
  revert Hrun; unfold loop_body; unfold bind at 1; rewrite Hres.
  intros Hrun.
  destruct (traces_run _ _ _ _ _ (pass_rest_url (self_engine st) self
                                    table_obj v) Hrun)
    as (evs & -> & Hevs).
  by exists evs.
Qed.

(** A table's own non-empty [url] wins: in the pass of such a table
    every URL handed to the engine (archive download, file download,
    table creation, insertion from URL) is the table's own, never the
    dataset's and never one left by an earlier table, and it is the
    binding the pass leaves. *)
Theorem own_url_wins self table_obj url st v r st' :
  table_obj !! "url" = Some v -> truthy v = true ->
  loop_body self table_obj url st = (r, st') ->
  exists evs, st' = emits st evs /\
    Forall (fun ev => forall u, url_arg ev = Some u -> u = v) evs /\
    forall sig url', r = Val (sig, url') -> url' = Some v.
Proof.
  intros Hv Ht; apply loop_body_url.
  by apply resolve_url_own.
Qed.

Lemma own_url_wins_witness :
  exists evs,
    emits (state_of plain_engine)
      [Call (Eng.auto_create_table csv_table (PStr "http://x/b.csv") None);
       Call (Eng.insert_data_from_url (PStr "http://x/b.csv"));
       Call Eng.disconnect_files]
    = emits (state_of plain_engine) evs /\
    Forall (fun ev => forall u, url_arg ev = Some u ->
                      u = PStr "http://x/b.csv") evs /\
    forall sig url',
      Val (Fallthrough, Some (PStr "http://x/b.csv")) = Val (sig, url') ->
      url' = Some (PStr "http://x/b.csv").
Proof.
  apply (own_url_wins two_tables csv_table (Some (PStr "http://old"))
           (state_of plain_engine) (PStr "http://x/b.csv")
           (Val (Fallthrough, Some (PStr "http://x/b.csv"))));
    reflexivity.
Defined.

(** A table with no URL of its own (none, or an empty one) in a dataset
    with a non-empty [url]: every URL handed to the engine in the pass is
    the dataset's, whatever an earlier table used. *)
Theorem dataset_url_is_default self table_obj url st v r st' :
  (forall w, table_obj !! "url" = Some w -> truthy w = false) ->
  script_attrs self !! "url" = Some v -> truthy v = true ->
  loop_body self table_obj url st = (r, st') ->
  exists evs, st' = emits st evs /\
    Forall (fun ev => forall u, url_arg ev = Some u -> u = v) evs /\
    forall sig url', r = Val (sig, url') -> url' = Some v.
Proof.
  intros Hown Hv Ht; apply loop_body_url.
  by apply resolve_url_default.
Qed.

Lemma dataset_url_is_default_witness :
  exists evs,
    emits (state_of plain_engine)
      [Call (Eng.auto_create_table second_table (PStr "http://x") None);
       Call (Eng.insert_data_from_url (PStr "http://x"));
       Call Eng.disconnect_files]
    = emits (state_of plain_engine) evs /\
    Forall (fun ev => forall u, url_arg ev = Some u -> u = PStr "http://x")
      evs /\
    forall sig url',
      Val (Fallthrough, Some (PStr "http://x")) = Val (sig, url') ->
      url' = Some (PStr "http://x").
Proof.
  apply (dataset_url_is_default two_tables second_table
           (Some (PStr "http://old")) (state_of plain_engine)
           (PStr "http://x") (Val (Fallthrough, Some (PStr "http://x")))).
  - intros w Hw; vm_compute in Hw; discriminate.
  - reflexivity.
  - reflexivity.
  - reflexivity.
Defined.

(** A dataset without a [url] attribute: at the first table that has no
    URL of its own, line 123 raises [AttributeError]; nothing is called
    for that table and the run ends there, before the tables that
    follow. *)
Theorem missing_url_attribute_aborts self k table_obj rest url st :
  (forall w, table_obj !! "url" = Some w -> truthy w = false) ->
  script_attrs self !! "url" = None ->
  for_tables self ((k, table_obj) :: rest) url st
  = (Raise (AttributeError "url"), st).
Proof.
  intros Hown Hv; simpl; unfold loop_body, bind.
  by rewrite resolve_url_missing.
Qed.

Lemma missing_url_attribute_aborts_witness :
  for_tables (script_of [] []) [("b", second_table); ("a", first_table)]
    (Some (PStr "http://old")) (state_of plain_engine)
  = (Raise (AttributeError "url"), state_of plain_engine).
Proof.
  apply (missing_url_attribute_aborts (script_of [] []) "b" second_table
           [("a", first_table)] (Some (PStr "http://old"))
           (state_of plain_engine)).
  - intros w Hw; vm_compute in Hw; discriminate.
  - reflexivity.
Defined.

(** When [url] was never bound (first table, empty dataset [url], no
    URL on the table), a pass that reads it raises [UnboundLocalError]
    before any engine call.  It reads it when the table or the dataset is
    archived, when [process_tables] is to be called, or when the creation
    block is skipped and a tabular insertion is selected. *)
Theorem unbound_url_raises self table_obj st v :
  (forall w, table_obj !! "url" = Some w -> truthy w = false) ->
  script_attrs self !! "url" = Some v -> truthy v = false ->
  hasattr (script_attrs self) "archived" || hasattr table_obj "archived"
    = true \/
  creates (self_engine st) table_obj = true \/
  (engine_attrs (self_engine st) !! "spatial_support" = None /\
   exists dt, table_obj !! "dataset_type" = Some dt /\
     py_in_strs dt ["RasterDataset"; "VectorDataset"] = false) ->
  loop_body self table_obj None st = (Raise (UnboundLocalError "url"), st).
Proof.
  intros Hown Hv Ht Hneeds.
  unfold loop_body; unfold bind at 1.
  rewrite (resolve_url_stale self table_obj None st v) by done.
  unfold bind at 1, archive_stage.
  destruct (hasattr (script_attrs self) "archived"
            || hasattr table_obj "archived") eqn:Harch; [done |].
  unfold ret at 1, bind at 1.
  destruct Hneeds as [? | [Hc | (Hss & dt & Hdt & Hin)]]; [done | |].
  - by rewrite create_stage_creates.
  - destruct (creates (self_engine st) table_obj) eqn:Hc;
      [by rewrite create_stage_creates |].
    rewrite create_stage_skipped; [by run | | done].
    revert Hc; unfold creates; rewrite Hss.
    intros Hc f Hf; rewrite Hf in Hc; by destruct (py_eq_str f "tabular").
Qed.

Lemma unbound_url_raises_witness :
  loop_body no_default_url second_table None (state_of plain_engine)
  = (Raise (UnboundLocalError "url"), state_of plain_engine).
Proof.
  apply (unbound_url_raises no_default_url second_table
           (state_of plain_engine) (PStr "")).
  - intros w Hw; vm_compute in Hw; discriminate.
  - reflexivity.
  - reflexivity.
  - right; left; reflexivity.
Defined.

(** ** The metadata methods *)

Lemma append_nil (b : string) : EmptyString +:+ b = b.
Proof. reflexivity. Qed.

Lemma append_cons x (a b : string) : String x a +:+ b = String x (a +:+ b).
Proof. reflexivity. Qed.

Lemma append_assoc (a b c : string) : (a +:+ b) +:+ c = a +:+ (b +:+ c).
Proof.
  induction a as [| x a IH]; [done |].
  by rewrite !append_cons, IH.
Qed.

Lemma append_nil_r (a : string) : a +:+ EmptyString = a.
Proof.
  induction a as [| x a IH]; [done |].
  by rewrite append_cons, IH.
Qed.

Lemma str_prefix_app p b : str_prefix p (p +:+ b) = true.
Proof.
  induction p as [| x p IH]; [done |].
  rewrite append_cons; simpl.
  by rewrite Ascii.eqb_refl, IH.
Qed.

Lemma str_prefix_inv p : forall s,
  str_prefix p s = true -> exists b, s = p +:+ b.
Proof.
  induction p as [| x p IH]; intros s; simpl.
  - by exists s.
  - destruct s as [| y s]; [done |].
    intros [Hxy Hp]%andb_true_iff.
    apply Ascii.eqb_eq in Hxy as ->.
    destruct (IH _ Hp) as (b & ->); by exists b.
Qed.

Lemma str_contains_unfold n h :
  str_contains n h
  = str_prefix n h
    || match h with
       | String _ h' => str_contains n h'
       | EmptyString => false
       end.
Proof. by destruct h. Qed.

Lemma str_contains_intro n a b : str_contains n (a +:+ (n +:+ b)) = true.
Proof.
  induction a as [| x a IH].
  - by rewrite append_nil, str_contains_unfold, str_prefix_app.
  - rewrite append_cons, str_contains_unfold.
    by rewrite IH, orb_true_r.
Qed.

Lemma str_contains_inv n : forall h,
  str_contains n h = true -> exists a b, h = a +:+ (n +:+ b).
Proof.
  induction h as [| x h IH]; rewrite str_contains_unfold.
  - rewrite orb_false_r; intros (b & ->)%str_prefix_inv.
    by exists EmptyString, b.
  - intros [(b & ->)%str_prefix_inv | Hh]%orb_true_iff.
    + by exists EmptyString, b.
    + destruct (IH Hh) as (a & b & ->).
      by exists (String x a), b.
Qed.

Lemma str_join_ok sep l :
  Forall (fun v => is_str v = true) l -> exists s, str_join sep l = Val s.
Proof.
  induction 1 as [| v l Hv Hl IH]; [by eexists |].
  destruct v as [| | | s |]; try done.
  destruct IH as (r & Hr); simpl.
  destruct l; [by eexists |].
  rewrite Hr; by eexists.
Qed.

Lemma str_join_inv sep l : forall s,
  str_join sep l = Val s -> Forall (fun v => is_str v = true) l.
Proof.
  induction l as [| v l IH]; intros s; [constructor |].
  destruct v as [| | | x |]; try done.
  simpl; destruct l as [| w l]; [by repeat constructor |].
  destruct (str_join sep (w :: l)) as [r | e] eqn:Hr; [| done].
  intros _; constructor; [done | by eapply IH].
Qed.

(** A joined string contains each of its items. *)
Lemma str_join_elem sep x l : forall s,
  str_join sep l = Val s -> In (PStr x) l -> exists a b, s = a +:+ (x +:+ b).
Proof.
  induction l as [| v l IH]; intros s; [done |].
  destruct v as [| | | y |]; try done.
  simpl; destruct l as [| w l].
  - intros [= <-] [[= ->] | []].
    exists EmptyString, EmptyString.
    by rewrite append_nil, append_nil_r.
  - destruct (str_join sep (w :: l)) as [r | e] eqn:Hr; [| done].
    intros [= <-] [[= ->] | Hin].
    + by exists EmptyString, (sep +:+ r).
    + destruct (IH _ eq_refl Hin) as (a & b & ->).
      exists (y +:+ (sep +:+ a)), b.
      by rewrite !append_assoc.
Qed.

Lemma reference_url_value meta :
  reference_url meta
  = Some (if truthy (meta_ref meta) then meta_ref meta
          else match meta_urls meta with
               | [(_, v)] => v
               | _ => PNone
               end).
Proof.
  unfold reference_url, dict_get.
  destruct (truthy (meta_ref meta)); [done |].
  destruct (meta_urls meta) as [| [k v] [| kv urls]]; simpl; [done | | done].
  by rewrite String.eqb_refl.
Qed.

(** [Script.reference_url] never raises.  A truthy [ref] is returned
    whatever [urls] holds; with a falsy [ref] the result is the only
    value of [urls] when the dict has exactly one entry, and [None] when
    it is empty or has two entries or more. *)
Theorem reference_url_cases meta :
  (truthy (meta_ref meta) = true ->
   reference_url meta = Some (meta_ref meta)) /\
  (truthy (meta_ref meta) = false ->
   (forall k v, meta_urls meta = [(k, v)] -> reference_url meta = Some v) /\
   (length (meta_urls meta) <> 1 -> reference_url meta = Some PNone)).
Proof.
  rewrite reference_url_value.
  split; [by intros -> |]; intros ->; split.
  - by intros k v ->.
  - by destruct (meta_urls meta) as [| [k v] [| kv urls]].
Qed.

Lemma reference_url_cases_witness :
  reference_url portal_meta = Some (PStr "http://x/birds").
Proof.
  apply (proj1 (proj2 (reference_url_cases portal_meta) eq_refl)
           "main" (PStr "http://x/birds")).
  reflexivity.
Defined.

(** [Script.__str__] on a dataset whose name is a string: the name
    alone when there is no reference URL; the name, a newline and the
    reference URL when that is a non-empty string; [TypeError] when the
    reference is truthy and not a string. *)
Theorem Script_str_shape self meta n :
  script_name self = PStr n ->
  exists r, reference_url meta = Some r /\
    Script_str self meta
    = if truthy r then
        match r with
        | PStr u => Val (PStr (n +:+ (newline +:+ u)))
        | _ => Raise TypeError
        end
      else Val (PStr n).
Proof.
  intros Hn; unfold Script_str; rewrite reference_url_value, Hn.
  eexists; split; [done |].
  match goal with |- context [truthy ?r] => destruct (truthy r), r end; done.
Qed.

Lemma Script_str_shape_witness :
  exists r, reference_url portal_meta = Some r /\
    Script_str portal portal_meta
    = if truthy r then
        match r with
        | PStr u => Val (PStr ("ds" +:+ (newline +:+ u)))
        | _ => Raise TypeError
        end
      else Val (PStr "ds").
Proof. apply (Script_str_shape portal portal_meta "ds"); reflexivity. Defined.

Lemma upper_ascii_app a b :
  upper_ascii (a +:+ b) = upper_ascii a +:+ upper_ascii b.
Proof.
  induction a as [| x a IH]; [done |].
  rewrite append_cons; simpl; by rewrite IH, append_cons.
Qed.

Lemma forallb_Permutation {A} (f : A -> bool) (l l' : list A) :
  l ≡ₚ l' -> forallb f l = forallb f l'.
Proof.
  induction 1 as [| x l l' _ IH | x y l | l l' l'' _ IH1 _ IH2]; simpl.
  - done.
  - by rewrite IH.
  - by rewrite !andb_assoc, (andb_comm (f y)).
  - by rewrite IH1.
Qed.

Section SearchFacts.
Context (up : string -> string) (self : Script) (meta : Metadata).

(** The loop stops with [False] at the first term that is not found
    and raises at the first term that is not a string: either way the
    answer is [False]. *)
Lemma terms_loop_forallb s terms :
  match terms_loop up s terms with
  | Val b => b
  | Raise _ => false
  end = forallb (term_found up s) terms.
Proof.
  induction terms as [| [| | | t |] terms IH]; simpl; try done.
  by destruct (str_contains (up t) s).
Qed.

(** What [matches_terms] answers, from the metadata and the terms. *)
Lemma matches_terms_value terms :
  matches_terms up self meta terms
  = match meta_keywords meta with
    | PList keywords =>
        match str_join " " ([script_name self; meta_description meta;
                             script_name self] ++ keywords) with
        | Val joined => forallb (term_found up (up joined)) terms
        | Raise _ => false
        end
    | _ => false
    end.
Proof.
  unfold matches_terms, matches_terms_try.
  destruct (meta_keywords meta) as [| | | | keywords]; try done.
  destruct (str_join _ _) as [joined | e]; [| done].
  apply terms_loop_forallb.
Qed.

(** [matches_terms] is a conjunction over the terms: a dataset matches
    a list of terms put together from two lists exactly when it matches
    both lists. *)
Theorem matches_terms_app terms terms' :
  matches_terms up self meta (terms ++ terms')
  = matches_terms up self meta terms && matches_terms up self meta terms'.
Proof.
  rewrite !matches_terms_value.
  destruct (meta_keywords meta) as [| | | | keywords]; try done.
  destruct (str_join _ _) as [joined | e]; [| done].
  apply forallb_app.
Qed.

(** The order of the terms does not matter. *)
Theorem matches_terms_Permutation terms terms' :
  terms ≡ₚ terms' ->
  matches_terms up self meta terms = matches_terms up self meta terms'.
Proof.
  intros Hperm; rewrite !matches_terms_value.
  destruct (meta_keywords meta) as [| | | | keywords]; try done.
  destruct (str_join _ _) as [joined | e]; [| done].
  by apply forallb_Permutation.
Qed.

(** With no term to look for, [matches_terms] still builds the search
    string first: the answer is [True] exactly when the name and the
    description are strings and [keywords] is a list of strings, and
    [False] (the [TypeError] is swallowed) otherwise. *)
Theorem matches_terms_empty :
  matches_terms up self meta [] = true <->
  exists n d keywords,
    script_name self = PStr n /\ meta_description meta = PStr d /\
    meta_keywords meta = PList keywords /\
    Forall (fun v => is_str v = true) keywords.
Proof.
  rewrite matches_terms_value; split.
  - destruct (meta_keywords meta) as [| | | | keywords]; try done.
    destruct (str_join _ _) as [joined | e] eqn:Hjoin; [| done].
    intros _; apply str_join_inv in Hjoin.
    apply Forall_cons in Hjoin as [Hn Hjoin].
    apply Forall_cons in Hjoin as [Hd Hjoin].
    apply Forall_cons in Hjoin as [_ Hkw].
    destruct (script_name self) as [| | | n |]; try done.
    destruct (meta_description meta) as [| | | d |]; try done.
    by exists n, d, keywords.
  - intros (n & d & keywords & -> & -> & -> & Hkw).
    destruct (str_join_ok " " ([PStr n; PStr d; PStr n] ++ keywords))
      as (joined & ->); [| done].
    by repeat constructor.
Qed.

(** A term that is not a string makes the answer [False], wherever it
    stands in the list. *)
Theorem matches_terms_non_string term terms :
  In term terms -> is_str term = false ->
  matches_terms up self meta terms = false.
Proof.
  intros Hin Hterm; rewrite matches_terms_value.
  destruct (meta_keywords meta) as [| | | | keywords]; try done.
  destruct (str_join _ _) as [joined | e]; [| done].
  apply not_true_is_false; intros Hall.
  rewrite forallb_forall in Hall; specialize (Hall _ Hin).
  by destruct term.
Qed.

(** A dataset is found by its own metadata: on well-formed metadata,
    any text that occurs in the name, in the description or in one of
    the keywords is a matching term (up to case), given that upper-casing
    goes through concatenation. *)
Theorem matches_terms_own_metadata n d keywords x s :
  (forall a b, up (a +:+ b) = up a +:+ up b) ->
  script_name self = PStr n -> meta_description meta = PStr d ->
  meta_keywords meta = PList keywords ->
  Forall (fun v => is_str v = true) keywords ->
  In (PStr x) (PStr n :: PStr d :: keywords) ->
  str_contains s x = true ->
  matches_terms up self meta [PStr s] = true.
Proof.
  intros Hup Hn Hd Hkw Hstr Hin Hs.
  rewrite matches_terms_value, Hkw, Hn, Hd.
  destruct (str_join_ok " " ([PStr n; PStr d; PStr n] ++ keywords))
    as (joined & Hjoin); [by repeat constructor |].
  rewrite Hjoin; simpl; rewrite andb_true_r.
  assert (Hin' : In (PStr x) ([PStr n; PStr d; PStr n] ++ keywords)).
  { destruct Hin as [<- | [<- | Hin]]; simpl; auto. }
  destruct (str_join_elem _ _ _ _ Hjoin Hin') as (a & b & ->).
  apply str_contains_inv in Hs as (a' & b' & ->).
  rewrite !Hup, !append_assoc, <- (append_assoc (up a) (up a')).
  apply str_contains_intro.
Qed.

End SearchFacts.

Lemma matches_terms_Permutation_witness :
  matches_terms upper_ascii portal portal_meta [PStr "birds"; PStr "survey"]
  = matches_terms upper_ascii portal portal_meta
      [PStr "survey"; PStr "birds"].
Proof.
  apply (matches_terms_Permutation upper_ascii portal portal_meta
           [PStr "birds"; PStr "survey"] [PStr "survey"; PStr "birds"]).
  apply perm_swap.
Defined.

Lemma matches_terms_non_string_witness :
  matches_terms upper_ascii portal portal_meta [PStr "bird"; PInt 3] = false.
Proof.
  apply (matches_terms_non_string upper_ascii portal portal_meta (PInt 3)
           [PStr "bird"; PInt 3]).
  - right; left; reflexivity.
  - reflexivity.
Defined.

Lemma matches_terms_own_metadata_witness :
  matches_terms upper_ascii portal portal_meta [PStr "count"] = true.
Proof.
  apply (matches_terms_own_metadata upper_ascii portal portal_meta
           "ds" "Bird counts" [PStr "survey"] "Bird counts" "count").
  - apply upper_ascii_app.
  - reflexivity.
  - reflexivity.
  - reflexivity.
  - repeat constructor.
  - right; left; reflexivity.
  - reflexivity.
Defined.

(** ** The insertion stage within a pass *)







(** ** The conversions within a pass *)

Lemma py_getitem_pure v i st r st' :
  py_getitem v i st = (r, st') -> st' = st.
Proof.
  intros Hrun.
  destruct (traces_run (fun _ => False) _ st r st'
              (traces_getitem _ _ v i) Hrun) as (evs & -> & Hevs).
  destruct Hevs as [| ev evs []]; apply emits_nil.
Qed.

(** [process_tables] on a table with both markers: when it returns, the
    sheet selector had a second element, the table had a [path], and
    both conversions ran, the spreadsheet first. *)
Lemma process_tables_both self table_obj u st g st' :
  hasattr table_obj "xls_sheets" = true ->
  table_obj !! "geojson_data" = Some g ->
  process_tables self table_obj u st = (Val tt, st') ->
  exists sheets book p,
    table_obj !! "xls_sheets" = Some sheets /\
    py_getitem sheets 1 st = (Val book, st) /\
    table_obj !! "path" = Some p /\
    st' = emits st
            [Call (Eng.format_filename book); Call (Eng.format_filename p);
             Call (Eng.download_file u book);
             Call (Eng.excel_to_csv (engine_format (self_engine st) book)
                     (engine_format (self_engine st) p) sheets
                     (script_encoding self));
             Call (Eng.format_filename g); Call (Eng.format_filename p);
             Call (Eng.download_file u g);
             Call (Eng.process_geojson2csv
                     (engine_format (self_engine st) g)
                     (engine_format (self_engine st) p));
             Call (Eng.auto_create_table table_obj u (Some p))].
Proof.
  unfold hasattr at 1.
  destruct (table_obj !! "xls_sheets") as [sheets |] eqn:Hx; [| done].
  intros _ Hg Hrun.
  destruct (table_obj !! "path") as [p |] eqn:Hp;
    destruct sheets as [| | | [| a [| b s]] | [| a [| b l]]];
    revert Hrun; run_with ltac:(simpl); try done;
    intros [= <-]; eexists _, _, _;
    (split; [done |]); (split; [reflexivity |]); (split; [done |]);
    by rewrite !emits_emits.
Qed.

Lemma py_getitem_any v i st r st0 :
  py_getitem v i st = (r, st) -> py_getitem v i st0 = (r, st0).
Proof.
  unfold py_getitem.
  destruct v as [| | | s | l]; try by intros [= <-].
  - destruct (String.get i s); by intros [= <-].
  - destruct (l !! i); by intros [= <-].
Qed.

(** When [process_tables] is not to be called the creation block makes
    no call of the creation path. *)
Lemma create_stage_idle self table_obj url st r st' :
  creates (self_engine st) table_obj = false ->
  create_stage self table_obj url st = (r, st') ->
  exists evs, st' = emits st evs /\ Forall (fun ev => creation ev = false) evs.
Proof.
  unfold creates; intros Hc.
  destruct (table_obj !! "format") as [f |] eqn:Hf;
    destruct (engine_attrs (self_engine st) !! "spatial_support")
      as [ss |] eqn:Hss;
    try destruct (py_eq_str f "tabular") eqn:Hpy;
    simpl in Hc; try done;
    unfold create_stage, engine_hasattr, engine_getattr, getattr, bind,
      ret, raise, emit;
    repeat (rewrite ?Hf, ?Hpy, ?Hss, ?Hc; unfold hasattr; cbn beta iota);
    try (destruct (engine_attrs (self_engine st) !! "name") as [n |]);
    intros [= <- <-];
    first [ by exists [Print spatial_template n]; repeat constructor
          | exists []; by rewrite emits_nil ].
Qed.

(** C3 (amended).  On a table that has both [xls_sheets] and
    [geojson_data], every pass that completes and in which the
    table-creation stage runs (the format is "tabular" or the engine
    supports spatial data) invokes both conversions: the spreadsheet
    conversion first, then the geojson conversion, then the creation of
    the table from [path].  A pass in which the table-creation stage does
    not run invokes neither. *)
Theorem both_conversions_run self table_obj url st g sig url' st' :
  hasattr table_obj "xls_sheets" = true ->
  table_obj !! "geojson_data" = Some g ->
  loop_body self table_obj url st = (Val (sig, url'), st') ->
  if creates (self_engine st) table_obj then
    exists sheets book p u pre post,
      table_obj !! "xls_sheets" = Some sheets /\
      py_getitem sheets 1 st = (Val book, st) /\
      table_obj !! "path" = Some p /\
      url' = Some u /\
      st' = emits st
              (pre ++
               [Call (Eng.format_filename book);
                Call (Eng.format_filename p);
                Call (Eng.download_file u book);
                Call (Eng.excel_to_csv (engine_format (self_engine st) book)
                        (engine_format (self_engine st) p) sheets
                        (script_encoding self));
                Call (Eng.format_filename g);
                Call (Eng.format_filename p);
                Call (Eng.download_file u g);
                Call (Eng.process_geojson2csv
                        (engine_format (self_engine st) g)
                        (engine_format (self_engine st) p));
                Call (Eng.auto_create_table table_obj u (Some p))] ++
               post)
  else
    exists evs, st' = emits st evs /\
      Forall (fun ev => creation ev = false) evs.
Proof.
  intros Hx Hg Hrun.
  destruct (loop_body_inv _ _ _ _ _ _ _ Hrun)
    as (s1 & s2 & c & _ & Harch & Hcreate & Hrest).
  destruct (archive_stage_emits _ _ _ _ _ _ Harch) as (e1 & -> & He1).
  destruct (creates (self_engine st) table_obj) eqn:Hc.
  - rewrite create_stage_creates in Hcreate by done.
    apply bind_inv in Hcreate as (u & s & Hu & Hcreate).
    destruct url' as [u' |]; [| done].
    injection Hu as -> <-.
    apply bind_inv in Hcreate as ([] & s3 & Hpt & [= <- <-]).
    destruct (process_tables_both _ _ _ _ _ _ Hx Hg Hpt)
      as (sheets & book & p & Hsheets & Hbook & Hp & ->).
    destruct (insert_block_emits _ _ _ _ _ _ Hrest) as (e3 & -> & _).
    exists sheets, book, p, u, e1, e3.
    repeat (split; [done || by eapply py_getitem_any |]).
    by rewrite !emits_emits.
  - destruct (create_stage_idle self table_obj url' (emits st e1) _ _
                Hc Hcreate) as (e2 & -> & He2).
    assert (Hpre : Forall (fun ev => creation ev = false) (e1 ++ e2)).
    { apply Forall_app; split; [| done].
      eapply Forall_impl; [exact He1 |]; by intros [[] |]. }
    assert (Hblock : insert_block self table_obj url' (emits (emits st e1) e2)
                     = (Val sig, st') ->
      exists evs, st' = emits st evs /\
        Forall (fun ev => creation ev = false) evs).
    { intros Hins.
      destruct (insert_block_emits _ _ _ _ _ _ Hins) as (e3 & -> & He3).
      exists ((e1 ++ e2) ++ e3); split; [by rewrite !emits_emits, app_assoc |].
      apply Forall_app; split; [done |].
      eapply Forall_impl; [exact He3 |]; by intros [[] |]. }
    destruct c; [by apply Hblock | by apply Hblock |].
    destruct Hrest as [_ ->].
    exists (e1 ++ e2); by rewrite emits_emits.
Qed.

Lemma both_conversions_run_witness :
  exists sheets book p u pre post,
    mixed_table !! "xls_sheets" = Some sheets /\
    py_getitem sheets 1 (state_of plain_engine)
    = (Val book, state_of plain_engine) /\
    mixed_table !! "path" = Some p /\
    Some (PStr "http://x") = Some u /\
    emits (state_of plain_engine)
      [Call (Eng.format_filename (PStr "book.xlsx"));
       Call (Eng.format_filename (PStr "out.csv"));
       Call (Eng.download_file (PStr "http://x") (PStr "book.xlsx"));
       Call (Eng.excel_to_csv (PStr "raw_data/book.xlsx")
               (PStr "raw_data/out.csv")
               (PList [PInt 0; PStr "book.xlsx"]) (PStr "utf-8"));
       Call (Eng.format_filename (PStr "geo.json"));
       Call (Eng.format_filename (PStr "out.csv"));
       Call (Eng.download_file (PStr "http://x") (PStr "geo.json"));
       Call (Eng.process_geojson2csv (PStr "raw_data/geo.json")
               (PStr "raw_data/out.csv"));
       Call (Eng.auto_create_table mixed_table (PStr "http://x")
               (Some (PStr "out.csv")));
       Call Eng.disconnect_files]
    = emits (state_of plain_engine)
        (pre ++
         [Call (Eng.format_filename book);
          Call (Eng.format_filename p);
          Call (Eng.download_file u book);
          Call (Eng.excel_to_csv (raw_data book) (raw_data p) sheets
                  (script_encoding mixed_script));
          Call (Eng.format_filename (PStr "geo.json"));
          Call (Eng.format_filename p);
          Call (Eng.download_file u (PStr "geo.json"));
          Call (Eng.process_geojson2csv (raw_data (PStr "geo.json"))
                  (raw_data p));
          Call (Eng.auto_create_table mixed_table u (Some p))] ++
         post).
Proof.
  apply (both_conversions_run mixed_script mixed_table None
           (state_of plain_engine) (PStr "geo.json") Fallthrough
           (Some (PStr "http://x"))).
  - reflexivity.
  - reflexivity.
  - reflexivity.
Defined.

(** ** Spatial insertion within a pass *)





(** ** Archive extraction *)

(** C8 (amended).  The archive block does nothing unless the table or
    the dataset declares [archived].  When one of them does, it first
    computes the file list, and this can fail: without [extract_all] on
    the dataset and without [path] on the table it raises
    [AttributeError] before the engine is called, also when the table
    has [xls_sheets].  Otherwise it makes one call of
    [download_files_from_archive], with the archive type of the table
    when it has one, else the dataset's, and with the file list; a sheet
    selector [index, workbook] forces that list to be the workbook
    alone, whatever the general list was. *)
Theorem archive_stage_refines self table_obj u st :
  (spec_archive_active self table_obj = false ->
   forall url, archive_stage self table_obj url st = (Val tt, st)) /\
  (spec_archive_active self table_obj = true ->
   archive_stage self table_obj (Some u) st
   = match archive_file_names self table_obj with
     | Val files =>
         (Val tt,
          emits st
            [Call (Eng.download_files_from_archive u files
                     (spec_archive_type self table_obj)
                     (default (PBool false)
                        (script_attrs self !! "keep_in_dir"))
                     (default PNone
                        (script_attrs self !! "archive_name")))])
     | Raise e => (Raise e, st)
     end) /\
  (forall general idx book rest,
     general_file_names self table_obj = Some general ->
     table_obj !! "xls_sheets" = Some (PList (idx :: book :: rest)) ->
     archive_file_names self table_obj = Val (PList [book]) /\
     spec_file_names table_obj general = PList [book]) /\
  (general_file_names self table_obj = None ->
   archive_file_names self table_obj = Raise (AttributeError "path")).
Proof.
  split; [| split; [| split]].
  - unfold spec_archive_active, archive_stage.
    rewrite orb_comm; by intros ->.
  - unfold spec_archive_active, archive_stage; rewrite orb_comm; intros ->.
    unfold archive_file_names, spec_archive_type, general_file_names, hasattr.
    destruct (table_obj !! "xls_sheets")
      as [[| | | [| a [| b s]] | [| a [| b l]]] |] eqn:Hsheets;
      destruct (table_obj !! "archived") eqn:?,
               (script_attrs self !! "archived") eqn:?,
               (script_attrs self !! "extract_all") as [ea |] eqn:?,
               (table_obj !! "path") eqn:?,
               (script_attrs self !! "keep_in_dir") eqn:?,
               (script_attrs self !! "archive_name") eqn:?;
      run_with ltac:(simpl); try destruct (truthy ea); done.
  - intros general idx book rest Hgen Hx.
    unfold archive_file_names, spec_file_names; by rewrite Hgen, Hx.
  - intros Hgen; unfold archive_file_names; by rewrite Hgen.
Qed.

Lemma archive_stage_refines_witness :
  archive_stage workbook_script workbook_table (Some (PStr "http://x/data.zip"))
    (state_of plain_engine)
  = (Val tt,
     emits (state_of plain_engine)
       [Call (Eng.download_files_from_archive (PStr "http://x/data.zip")
                (PList [PStr "book.xlsx"]) (PStr "zip") (PBool true)
                PNone)]).
Proof.
  apply (proj1 (proj2 (archive_stage_refines workbook_script workbook_table
                         (PStr "http://x/data.zip")
                         (state_of plain_engine)))).
  reflexivity.
Defined.

(** C8, as stated, fails: the table declares [archived] and has
    [xls_sheets], but neither the dataset has [extract_all] nor the table
    a [path]; the archive block raises before the engine is called, so
    no file list, forced or not, reaches the engine. *)
Lemma pathless_workbook_not_extracted :
  spec_archive_active two_tables pathless_workbook = true /\
  hasattr pathless_workbook "xls_sheets" = true /\
  archive_stage two_tables pathless_workbook (Some (PStr "http://x"))
    (state_of plain_engine)
  = (Raise (AttributeError "path"), state_of plain_engine).
Proof. repeat split; reflexivity. Qed.

(** ** The decisions for one table, taken twice *)

(** When the URL of a table resolves, from the table or from the
    dataset, its pass does not depend on what the previous iteration left
    in [url]. *)
Lemma resolved_pass_ignores_binding self table_obj v url1 url2 st :
  (table_obj !! "url" = Some v \/
   (forall w, table_obj !! "url" = Some w -> truthy w = false) /\
   script_attrs self !! "url" = Some v) ->
  truthy v = true ->
  loop_body self table_obj url1 st = loop_body self table_obj url2 st.
Proof.
  intros Hv Ht; unfold loop_body, bind.
  destruct Hv as [Hv | [Hown Hv]].
  - by rewrite (resolve_url_own self table_obj url1 st v),
      (resolve_url_own self table_obj url2 st v).
  - by rewrite (resolve_url_default self table_obj url1 st v),
      (resolve_url_default self table_obj url2 st v).
Qed.

(** C9: the behaviour of the code where the claim fails.  In a dataset
    whose [url] is empty, the same table descriptor (no [url] of its own)
    is processed twice in one run, with the same dataset and the same
    engine: the first time it is created and loaded from the URL of the
    table before it, the second time from the URL of another table.  The
    decisions for the table are those of lines 121-124, which leave [url]
    as the previous iteration bound it. *)
Theorem stale_url_breaks_idempotence :
  let st := state_of plain_engine in
  let pass u :=
    [Call (Eng.auto_create_table second_table u None);
     Call (Eng.insert_data_from_url u);
     Call Eng.disconnect_files] in
  loop_body repeated_table second_table (Some (PStr "http://x/a.csv")) st
  = (Val (Fallthrough, Some (PStr "http://x/a.csv")),
     emits st (pass (PStr "http://x/a.csv"))) /\
  loop_body repeated_table second_table (Some (PStr "http://x/c.csv")) st
  = (Val (Fallthrough, Some (PStr "http://x/c.csv")),
     emits st (pass (PStr "http://x/c.csv"))) /\
  loop_body repeated_table second_table None st
  = (Raise (UnboundLocalError "url"), st) /\
  out (download plain_engine repeated_table (Some plain_engine)
         (PBool false) []).2
  = [Call Eng.get_input; Call Eng.set_engine_encoding; Call Eng.create_db;
     Call (Eng.auto_create_table first_table (PStr "http://x/a.csv") None);
     Call (Eng.insert_data_from_url (PStr "http://x/a.csv"));
     Call Eng.disconnect_files]
    ++ pass (PStr "http://x/a.csv")
    ++ [Call (Eng.auto_create_table third_table (PStr "http://x/c.csv") None);
        Call (Eng.insert_data_from_url (PStr "http://x/c.csv"));
        Call Eng.disconnect_files]
    ++ pass (PStr "http://x/c.csv").
Proof. repeat split; reflexivity. Qed.
